(** * HealthLLM-RLCR: the LifeSnaps corpus construction pipeline

    A shallow embedding of [data_processing.py] and of
    [data/creation_scripts/lifesnaps_healthcare.py], and the properties of
    the corpus construction pipeline proved about it.

    Modelling conventions.
    - A Python [dict] row (one CSV line, one dataset example) is a finite map
      from column names to values, [gmap string value].
    - Text is a Rocq [string]; the escape [\n] of the Python literals is the
      character of code 10.
    - A Python [float] cell is kept by its [repr] text: the only thing the
      code ever does with such a cell is to format it.
    - [train_ratio] is a rational number and the product
      [len(df) * train_ratio] is taken exactly; the rounding of the binary
      floating point product is not modelled.
    - Exceptions are values of [exn]; code that can raise returns
      [exn + A].
    - The three external routines the scripts call ([DataFrame.sample],
      [Dataset.shuffle], [system_prompts.get_sys_prompt]) are the fields of
      the class [Libraries]; what they do with an argument they refuse is
      not modelled.
    - A script is a function of the CSV files on disk that returns the
      events it produced (the lines printed, each by its kind, the
      directories made and the datasets saved) and its result.
    - [main], which parses the command line, prints a summary and may
      publish the saved datasets, is not modelled. *)

From Stdlib Require Import ZArith QArith Qround String Ascii DecimalString.
From Stdlib Require Import DecimalPos DecimalZ.
From stdpp Require Import gmap strings list fin_maps.

Local Close Scope Q_scope.

(* ===================================================================== *)
(** ** Values, rows and exceptions *)
(* ===================================================================== *)

(** One turn of a conversation: the dict [{"role": .., "content": ..}]. *)
Record message := Message { role : string; content : string }.

(** The values a cell of a row can hold. *)
Inductive value :=
| VStr (s : string)
| VInt (z : Z)
| VFloat (repr : string)
| VNone
| VConversation (msgs : list message).

Abbreviation row := (gmap string value).

(** A [datasets.Dataset]: the sequence of its examples. *)
Abbreviation Dataset := (list row).

(** A [DatasetDict] with the two splits the scripts build. *)
Record DatasetDict := { train : Dataset; test : Dataset }.

Inductive exn :=
| KeyError (key : string)
| AttributeError (what : string)
| IndexError
| TypeError (what : string)
| FileNotFoundError (path : string)
| ValueError (what : string).

Definition result (A : Type) : Type := exn + A.

Abbreviation Ok := (@inr exn _).
Abbreviation Raise := (@inl exn _).

Definition rbind {A B} (m : result A) (k : A → result B) : result B :=
  match m with
  | inl e => inl e
  | inr a => k a
  end.

Notation "x <~ m ;; k" := (rbind m (λ x, k))
  (at level 100, m at next level, right associativity, only parsing).

Fixpoint rmapM {A B} (f : A → result B) (l : list A) : result (list B) :=
  match l with
  | [] => Ok []
  | x :: l' =>
      y <~ f x ;; ys <~ rmapM f l' ;; Ok (y :: ys)
  end.

(* ===================================================================== *)
(** ** Python text primitives *)
(* ===================================================================== *)

Definition nl : string := String "010" EmptyString.

(** [str(z)] for an integer. *)
Definition str_int (z : Z) : string := NilZero.string_of_int (Z.to_int z).

Fixpoint contains_char (c : ascii) (s : string) : bool :=
  match s with
  | EmptyString => false
  | String d s' => if Ascii.eqb c d then true else contains_char c s'
  end.

Definition hex_digit (n : nat) : ascii :=
  match n with
  | 0 => "0" | 1 => "1" | 2 => "2" | 3 => "3" | 4 => "4" | 5 => "5"
  | 6 => "6" | 7 => "7" | 8 => "8" | 9 => "9" | 10 => "a" | 11 => "b"
  | 12 => "c" | 13 => "d" | 14 => "e" | _ => "f"
  end%char.

Definition backslash : ascii := "\"%char.
Definition dquote : ascii := "034"%char.

(** The body of [repr(s)] for a [str], [q] being the quote chosen. Bytes
    above 127 stand for the encoding of printable characters and are kept. *)
Fixpoint repr_chars (q : ascii) (s : string) : string :=
  match s with
  | EmptyString => EmptyString
  | String c s' =>
      let n := nat_of_ascii c in
      (if Ascii.eqb c q || Ascii.eqb c backslash then String backslash (String c EmptyString)
       else if Nat.eqb n 9 then String backslash "t"
       else if Nat.eqb n 10 then String backslash "n"
       else if Nat.eqb n 13 then String backslash "r"
       else if Nat.ltb n 32 || Nat.eqb n 127
            then String backslash
                   (String "x" (String (hex_digit (n / 16)) (String (hex_digit (n mod 16)) EmptyString)))
       else String c EmptyString) +:+ repr_chars q s'
  end.

Definition repr_str (s : string) : string :=
  let q := if contains_char "'" s && negb (contains_char dquote s)
           then dquote else "'"%char in
  String q (repr_chars q s +:+ String q EmptyString).

Definition repr_message (m : message) : string :=
  "{'role': " +:+ repr_str (role m) +:+ ", 'content': " +:+ repr_str (content m) +:+ "}".

Fixpoint join (sep : string) (l : list string) : string :=
  match l with
  | [] => EmptyString
  | [x] => x
  | x :: l' => x +:+ sep +:+ join sep l'
  end.

(** [str(v)], which is also what an f-string field [{v}] expands to. *)
Definition py_str (v : value) : string :=
  match v with
  | VStr s => s
  | VInt z => str_int z
  | VFloat r => r
  | VNone => "None"
  | VConversation msgs => "[" +:+ join ", " (repr_message <$> msgs) +:+ "]"
  end.

(** [c.lower()] on the ASCII letters. *)
Definition lower_char (c : ascii) : ascii :=
  let n := nat_of_ascii c in
  if Nat.leb 65 n && Nat.leb n 90 then ascii_of_nat (n + 32) else c.

Fixpoint lower (s : string) : string :=
  match s with
  | EmptyString => EmptyString
  | String c s' => String (lower_char c) (lower s')
  end.

(** [needle in hay] for two strings. *)
Fixpoint str_in (needle hay : string) : bool :=
  String.prefix needle hay ||
  match hay with
  | EmptyString => false
  | String _ hay' => str_in needle hay'
  end.

(* ===================================================================== *)
(** ** data_processing.py *)
(* ===================================================================== *)

(** The f-string ["\n\nPROBLEM: {problem_text}\n\n"]. *)
Definition user_format (problem_text : string) : string :=
  nl +:+ nl +:+ "PROBLEM: " +:+ problem_text +:+ nl +:+ nl.

Definition prompt_of (sys_prompt user : string) : list message :=
  [ Message "system" sys_prompt; Message "user" user ].

(** [example[key]], raising [KeyError] on a missing key. *)
Definition getitem (example : row) (key : string) : result value :=
  match example !! key with
  | Some v => Ok v
  | None => Raise (KeyError key)
  end.

(** The dict [make_generation_conversation] returns, with its single key
    ["prompt"]. *)
Definition make_generation_conversation (sys_prompt : string) (example : row)
  : result row :=
  user_fmt <~ (if decide (is_Some (example !! "question"))
               then q <~ getitem example "question" ;; Ok (user_format (py_str q))
               else p <~ getitem example "problem" ;; Ok (user_format (py_str p))) ;;
  Ok {[ "prompt" := VConversation (prompt_of sys_prompt user_fmt) ]}.

(** [Dataset.map(function)]: the function is applied to the examples in
    order and each returned dict updates its example; an exception raised by
    the function ends the whole map. *)
Definition dataset_map (function : row → result row) (dataset : Dataset)
  : result Dataset :=
  rmapM (λ example, out <~ function example ;; Ok (out ∪ example)) dataset.

(** Whatever has a [map] method: a [Dataset], or a [DatasetDict], whose
    [map] maps its splits in key order. *)
Class Mappable (D : Type) := dmap : (row → result row) → D → result D.

#[export] Instance Dataset_mappable : Mappable Dataset := dataset_map.

#[export] Instance DatasetDict_mappable : Mappable DatasetDict := λ function dd,
  tr <~ dataset_map function (train dd) ;;
  te <~ dataset_map function (test dd) ;;
  Ok {| train := tr; test := te |}.

Definition make_generation_dataset {D} `{Mappable D} (dataset : D)
    (sys_prompt : string) : result D :=
  dmap (make_generation_conversation sys_prompt) dataset.

Definition fatigue_instruction : string :=
  " Your prediction should be a single integer from 0 to 5. Only provide the predicted value within the <answer> </answer> tags.".
Definition readiness_instruction : string :=
  " Your prediction should be a single integer from 0 to 10. Only provide the predicted value within the <answer> </answer> tags.".
Definition sleep_quality_instruction : string :=
  " Your prediction should be a single integer from 1 to 5. Only provide the predicted value within the <answer> </answer> tags.".
Definition stress_instruction : string :=
  " Your prediction should be a single integer from 0 to 5. Only provide the predicted value within the <answer> </answer> tags.".
Definition default_instruction : string :=
  " Only provide the predicted value within the <answer> </answer> tags.".

(** [example.get(key, default)]. *)
Definition get_default (example : row) (key : string) (dflt : value) : value :=
  default dflt (example !! key).

(** [source.lower()]: only a [str] has the method. *)
Definition lower_of (source : value) : result string :=
  match source with
  | VStr s => Ok (lower s)
  | _ => Raise (AttributeError "lower")
  end.

(** [problem_text + instruction], the right operand being a [str]. *)
Definition add_str (problem_text : value) (instruction : string) : result value :=
  match problem_text with
  | VStr s => Ok (VStr (s +:+ instruction))
  | _ => Raise (TypeError "+")
  end.

(** The inner function of [make_healthcare_dataset]. *)
Definition process_example (sys_prompt : string) (add_instruction : bool)
    (example : row) : result row :=
  problem_text <~ getitem example "problem" ;;
  problem_text <~
    (if add_instruction then
       let source := get_default example "source" (VStr "PMData") in
       instruction <~
         (low <~ lower_of source ;;
          if str_in "fatigue" low then Ok fatigue_instruction
          else low <~ lower_of source ;;
          if str_in "readiness" low then Ok readiness_instruction
          else low <~ lower_of source ;;
          if str_in "sleep_quality" low then Ok sleep_quality_instruction
          else low <~ lower_of source ;;
          if str_in "stress" low then Ok stress_instruction
          else Ok default_instruction) ;;
       add_str problem_text instruction
     else Ok problem_text) ;;
  let user_fmt := user_format (py_str problem_text) in
  answer <~ getitem example "answer" ;;
  Ok (<[ "prompt" := VConversation (prompt_of sys_prompt user_fmt) ]>
      (<[ "answer" := VStr (py_str answer) ]>
       {[ "source" := get_default example "source" (VStr "healthcare") ]})).

Definition make_healthcare_dataset (dataset : Dataset) (sys_prompt : string)
    (add_instruction : bool) : result Dataset :=
  dataset_map (process_example sys_prompt add_instruction) dataset.

Record ScriptArgs := { sys_prompt_name : string; task_spec : string }.

(** The routines of other modules and packages the scripts rely on.
    - [sample_order seed n]: the positions [DataFrame.sample(frac=1,
      random_state=seed)] draws from a frame of [n] rows, in order;
    - [shuffle_order seed n]: the positions [Dataset.shuffle(seed=seed)]
      selects from a dataset of [n] examples, in order;
    - [get_sys_prompt name]: the system prompt text of module
      [system_prompts].
    Both orders are permutations of the positions [0 .. n-1]. *)
Class Libraries := {
  sample_order : Z → nat → list nat;
  sample_order_perm : ∀ seed n, sample_order seed n ≡ₚ seq 0 n;
  shuffle_order : Z → nat → list nat;
  shuffle_order_perm : ∀ seed n, shuffle_order seed n ≡ₚ seq 0 n;
  get_sys_prompt : string → result string
}.

Definition process_dataset `{Libraries} {D} `{Mappable D}
    (dataset : D) (script_args : ScriptArgs) : result D :=
  sys_prompt <~ get_sys_prompt (sys_prompt_name script_args) ;;
  if decide (task_spec script_args = "gen")
  then make_generation_dataset dataset sys_prompt
  else Ok dataset.

(* ===================================================================== *)
(** ** lifesnaps_healthcare.py: frames, slices and the script monad *)
(* ===================================================================== *)

(** A [pandas.DataFrame] as [read_csv] builds it: the header and the rows
    in file order. *)
Record DataFrame := { columns : list string; rows : list row }.

Definition len (df : DataFrame) : nat := length (rows df).

(** A frame is well formed when every row has exactly the header's keys. *)
Definition wf_frame (df : DataFrame) : Prop :=
  Forall (λ r : row, ∀ k, is_Some (r !! k) ↔ k ∈ columns df) (rows df).

(** [series.astype(str)] on one cell. *)
Definition astype_str (v : value) : value := VStr (py_str v).

(** [df['answer'] = df['answer'].astype(str)]. *)
Definition answer_astype_str (df : DataFrame) : DataFrame :=
  {| columns := columns df; rows := alter astype_str "answer" <$> rows df |}.

(** Selecting rows by position ([DataFrame.take], [Dataset.select]); a
    position out of range raises. *)
Definition take_rows (positions : list nat) (l : list row) : result (list row) :=
  rmapM (λ i, match l !! i with
              | Some r => Ok r
              | None => Raise IndexError
              end) positions.

(** [df.sample(frac=1, random_state=seed).reset_index(drop=True)]. *)
Definition sample_all `{Libraries} (df : DataFrame) (seed : Z) : result DataFrame :=
  rs <~ take_rows (sample_order seed (len df)) (rows df) ;;
  Ok {| columns := columns df; rows := rs |}.

(** [int(x)] for a rational [x]: truncation towards zero. *)
Definition int_of (x : Q) : Z := Z.quot (Qnum x) (Z.pos (Qden x)).

(** The position a slice bound [k] denotes in a sequence of length [n]:
    a negative bound counts from the end, and both are clipped. *)
Definition slice_pos (n : nat) (k : Z) : nat :=
  Z.to_nat (if (k <? 0)%Z then Z.of_nat n + k else k).

(** [l[:k]] and [l[k:]]. *)
Definition slice_to {A} (k : Z) (l : list A) : list A := take (slice_pos (length l) k) l.
Definition slice_from {A} (k : Z) (l : list A) : list A := drop (slice_pos (length l) k) l.

(** [split_idx = int(len(df) * train_ratio)]. *)
Definition split_idx (df : DataFrame) (train_ratio : Q) : Z :=
  int_of (inject_Z (Z.of_nat (len df)) * train_ratio)%Q.

(** [Dataset.from_pandas]. *)
Definition from_pandas (df : DataFrame) : Dataset := rows df.

(** Lines 74 and 75 of [load_single_csv]. *)
Definition coerce_answer (df : DataFrame) : DataFrame :=
  if decide ("answer" ∈ columns df) then answer_astype_str df else df.

(** Lines 72 to 85 of [load_single_csv]: what is done to the frame once it
    is read. *)
Definition split_frame `{Libraries} (df : DataFrame) (train_ratio : Q) (seed : Z)
  : result (Dataset * Dataset) :=
  let df := coerce_answer df in
  df <~ sample_all df seed ;;
  let idx := split_idx df train_ratio in
  let train_df := {| columns := columns df; rows := slice_to idx (rows df) |} in
  let test_df := {| columns := columns df; rows := slice_from idx (rows df) |} in
  Ok (from_pandas train_df, from_pandas test_df).

(** What a run leaves behind. A [print] of fixed text is [Say]; a [print]
    of a formatted line is the event of its kind, with the values
    formatted: [Loading] (line 68), [WarnNotFound] (95), [TaskSizes] (101),
    [ErrNoValidCsv] (104), [TotalSamples] (155, 197), [Processing] (164,
    200), [SavedTo] (176, 203), [Sizes] (177). [MakeDirs] is
    [os.makedirs] and [SaveToDisk] is [save_to_disk]. *)
Inductive event :=
| Say (line : string)
| Loading (csv_path : string)
| WarnNotFound (csv_path : string)
| TaskSizes (task_name : string) (ntrain ntest : nat)
| ErrNoValidCsv
| TotalSamples (ntrain ntest : nat)
| Processing (sys_prompt : string)
| MakeDirs (dir : string)
| SaveToDisk (save_path : string) (processed : DatasetDict)
| SavedTo (save_path : string)
| Sizes (ntrain ntest : nat).

(** A script reads the CSV files of the file system and produces its
    events in order; an exception ends it, the events so far remain. *)
Definition script (A : Type) : Type :=
  gmap string DataFrame → list event * result A.

Definition sret {A} (a : A) : script A := λ _, ([], Ok a).

Definition sbind {A B} (m : script A) (k : A → script B) : script B := λ fs,
  match m fs with
  | (out, inl e) => (out, inl e)
  | (out, inr a) => let '(out', r) := k a fs in (out ++ out', r)
  end.

Notation "x <- m ;; k" := (sbind m (λ x, k))
  (at level 100, m at next level, right associativity, only parsing).
Notation "m ;; k" := (sbind m (λ _, k))
  (at level 100, right associativity, only parsing).

Definition emit (e : event) : script unit := λ _, ([e], Ok tt).

Definition lift {A} (r : result A) : script A := λ _, ([], r).

(** [os.path.exists]. *)
Definition path_exists (p : string) : script bool := λ fs,
  ([], Ok (bool_decide (is_Some (fs !! p)))).

(** [pd.read_csv]. *)
Definition read_csv (p : string) : script DataFrame := λ fs,
  ([], match fs !! p with
       | Some df => Ok df
       | None => Raise (FileNotFoundError p)
       end).

Definition load_single_csv `{Libraries} (csv_path : string) (train_ratio : Q)
    (seed : Z) : script (Dataset * Dataset) :=
  emit (Loading csv_path) ;;
  df <- read_csv csv_path ;;
  lift (split_frame df train_ratio seed).

(** [Dataset.shuffle(seed=seed)]. *)
Definition shuffle `{Libraries} (ds : Dataset) (seed : Z) : result Dataset :=
  take_rows (shuffle_order seed (length ds)) ds.

(** [concatenate_datasets]. *)
Definition concatenate_datasets (dss : list Dataset) : Dataset := concat dss.

(** The [for] loop of [load_all_csv_files] over [csv_files.items()], with
    its two accumulators. *)
Fixpoint load_loop `{Libraries} (items : list (string * string))
    (train_ratio : Q) (seed : Z) (all_train all_test : list Dataset)
  : script (list Dataset * list Dataset) :=
  match items with
  | [] => sret (all_train, all_test)
  | (task_name, csv_path) :: items' =>
      found <- path_exists csv_path ;;
      if found : bool then
        split <- load_single_csv csv_path train_ratio seed ;;
        emit (TaskSizes task_name (length split.1) (length split.2)) ;;
        load_loop items' train_ratio seed (all_train ++ [split.1]) (all_test ++ [split.2])
      else
        emit (WarnNotFound csv_path) ;;
        load_loop items' train_ratio seed all_train all_test
  end.

(** Lines 107 to 115: combine and shuffle. *)
Definition combine `{Libraries} (all_train all_test : list Dataset) (seed : Z)
  : result DatasetDict :=
  let combined_train := concatenate_datasets all_train in
  let combined_test := concatenate_datasets all_test in
  combined_train <~ shuffle combined_train seed ;;
  combined_test <~ shuffle combined_test seed ;;
  Ok {| train := combined_train; test := combined_test |}.

Definition load_all_csv_files `{Libraries} (csv_files : list (string * string))
    (train_ratio : Q) (seed : Z) : script (option DatasetDict) :=
  acc <- load_loop csv_files train_ratio seed [] [] ;;
  match acc.1 with
  | [] => emit ErrNoValidCsv ;; sret None
  | _ => dd <- lift (combine acc.1 acc.2 seed) ;; sret (Some dd)
  end.

(* ===================================================================== *)
(** ** lifesnaps_healthcare.py: one corpus, many prompts *)
(* ===================================================================== *)

Definition CSV_FILES : list (string * string) :=
  [ ("sleep_disorder",
     "/home/fzha836/HealthLLM-RLCR/data/LifeSnaps/LifeSnaps_sleep_disorder.csv");
    ("stress_resilience",
     "/home/fzha836/HealthLLM-RLCR/data/LifeSnaps/LifeSnaps_stress_resilience.csv") ].

Definition ALL_SYS_PROMPTS : list string := [ "gen"; "tac"; "tabc"; "tabc_long" ].

Definition OUTPUT_DIR : string := "./data/lifesnaps_processed".

Definition DEFAULT_TRAIN_RATIO : Q := (8 # 10)%Q.
Definition DEFAULT_SEED : Z := 42.

Definition starts_with_sep (s : string) : bool := String.prefix "/" s.

Fixpoint ends_with_sep (s : string) : bool :=
  match s with
  | EmptyString => false
  | String c EmptyString => Ascii.eqb c "/"
  | String _ s' => ends_with_sep s'
  end.

(** [os.path.join(a, b)] of [posixpath]. *)
Definition os_path_join (a b : string) : string :=
  if starts_with_sep b then b
  else if String.eqb a EmptyString || ends_with_sep a then a +:+ b
  else a +:+ "/" +:+ b.

Fixpoint times (n : nat) (s : string) : string :=
  match n with
  | O => EmptyString
  | S n' => s +:+ times n' s
  end.

(** ['='*70]. *)
Definition rule : string := times 70 "=".

Definition header (title : string) : script unit :=
  emit (Say (nl +:+ rule)) ;; emit (Say title) ;; emit (Say rule).

(** The entry of [results] for one prompt. *)
Record prompt_info := { path : string; train_size : nat; test_size : nat }.

Definition create_dataset_for_prompt `{Libraries} (raw_dataset : DatasetDict)
    (sys_prompt_name output_dir : string) : script (DatasetDict * string) :=
  let script_args := {| sys_prompt_name := sys_prompt_name; task_spec := "gen" |} in
  processed <- lift (process_dataset raw_dataset script_args) ;;
  let save_path := os_path_join output_dir ("lifesnaps_" +:+ sys_prompt_name) in
  emit (SaveToDisk save_path processed) ;;
  sret (processed, save_path).

(** The [for sys_prompt_name in ...] loop of
    [create_datasets_for_all_prompts], filling [results]. *)
Fixpoint prompts_loop `{Libraries} (names : list string) (raw_dataset : DatasetDict)
    (output_dir : string) (results : gmap string prompt_info)
  : script (gmap string prompt_info) :=
  match names with
  | [] => sret results
  | sys_prompt_name :: names' =>
      emit (Processing sys_prompt_name) ;;
      out <- create_dataset_for_prompt raw_dataset sys_prompt_name output_dir ;;
      let results :=
        <[ sys_prompt_name :=
             {| path := out.2;
                train_size := length (train out.1);
                test_size := length (test out.1) |} ]> results in
      emit (SavedTo out.2) ;;
      emit (Sizes (length (train out.1)) (length (test out.1))) ;;
      prompts_loop names' raw_dataset output_dir results
  end.

(** [create_datasets_for_all_prompts], for the prompt names [names]; the
    script runs it on [ALL_SYS_PROMPTS]. *)
Definition create_datasets_for_prompts `{Libraries} (names : list string)
    (csv_files : list (string * string)) (output_dir : string)
    (train_ratio : Q) (seed : Z) : script (option (gmap string prompt_info)) :=
  emit (MakeDirs output_dir) ;;
  header "Step 1: Loading all CSV files" ;;
  raw_dataset <- load_all_csv_files csv_files train_ratio seed ;;
  match raw_dataset with
  | None => sret None
  | Some raw_dataset =>
      emit (TotalSamples (length (train raw_dataset)) (length (test raw_dataset))) ;;
      header "Step 2: Creating datasets for each system prompt" ;;
      results <- prompts_loop names raw_dataset output_dir ∅ ;;
      sret (Some results)
  end.

Definition create_datasets_for_all_prompts `{Libraries}
    (csv_files : list (string * string)) (output_dir : string)
    (train_ratio : Q) (seed : Z) : script (option (gmap string prompt_info)) :=
  create_datasets_for_prompts ALL_SYS_PROMPTS csv_files output_dir train_ratio seed.

Definition create_dataset_for_single_prompt `{Libraries}
    (csv_files : list (string * string)) (output_dir sys_prompt_name : string)
    (train_ratio : Q) (seed : Z) : script (option DatasetDict) :=
  emit (MakeDirs output_dir) ;;
  header ("Creating dataset with '" +:+ sys_prompt_name +:+ "' prompt") ;;
  emit (Say (nl +:+ "Loading CSV files...")) ;;
  raw_dataset <- load_all_csv_files csv_files train_ratio seed ;;
  match raw_dataset with
  | None => sret None
  | Some raw_dataset =>
      emit (TotalSamples (length (train raw_dataset)) (length (test raw_dataset))) ;;
      emit (Processing sys_prompt_name) ;;
      out <- create_dataset_for_prompt raw_dataset sys_prompt_name output_dir ;;
      emit (SavedTo out.2) ;;
      sret (Some out.1)
  end.

(* ===================================================================== *)
(** ** What is observed of rows and runs *)
(* ===================================================================== *)

(** The [(problem, answer, source)] triple of a record. *)
Definition triple (r : row) : option value * option value * option value :=
  (r !! "problem", r !! "answer", r !! "source").

(** The answer of a record, when it has one, is text. *)
Definition answer_is_text (r : row) : Prop :=
  match r !! "answer" with
  | Some (VStr _) | None => True
  | Some _ => False
  end.

(** The field the problem text is taken from: [question] if the record has
    one, else [problem]. *)
Definition problem_field (r : row) : option value :=
  match r !! "question" with
  | Some q => Some q
  | None => r !! "problem"
  end.

(** [r'] is [r] with the two-turn prompt for [sys_prompt] added. *)
Definition templated (sys_prompt : string) (r r' : row) : Prop :=
  ∃ v, problem_field r = Some v ∧
       r' = <[ "prompt" := VConversation (prompt_of sys_prompt (user_format (py_str v))) ]> r.

(** Two processed rows that differ in the system turn at most. *)
Definition same_but_system (r1 r2 : row) : Prop :=
  delete "prompt" r1 = delete "prompt" r2 ∧
  ∃ sys1 sys2 user,
    r1 !! "prompt" = Some (VConversation (prompt_of sys1 user)) ∧
    r2 !! "prompt" = Some (VConversation (prompt_of sys2 user)).

(** The CSV paths a run loaded, and the datasets it saved, in order. *)
Definition loads (events : list event) : list string :=
  omap (λ e, match e with Loading p => Some p | _ => None end) events.

Definition saves (events : list event) : list (string * DatasetDict) :=
  omap (λ e, match e with SaveToDisk p d => Some (p, d) | _ => None end) events.

(** The prompts a run started to process. *)
Definition processed_prompts (events : list event) : list string :=
  omap (λ e, match e with Processing n => Some n | _ => None end) events.

(** The entries of [csv_files] whose file exists, with its content. *)
Definition present (csv_files : list (string * string)) (fs : gmap string DataFrame)
  : list (string * string * DataFrame) :=
  omap (λ item : string * string, (λ df, (item, df)) <$> fs !! item.2) csv_files.

(** The save path of a prompt. *)
Definition save_path_of (output_dir sys_prompt_name : string) : string :=
  os_path_join output_dir ("lifesnaps_" +:+ sys_prompt_name).

(** The run [run] after the events [events]. *)
Definition after {A} (events : list event) (run : list event * result A)
  : list event * result A :=
  (events ++ run.1, run.2).

(** What a prompt leaves on disk: the corpus templated with its system
    prompt, at its own path. *)
Definition saved_for `{Libraries} (raw : DatasetDict) (output_dir name : string)
    (s : string * DatasetDict) : Prop :=
  s.1 = save_path_of output_dir name ∧
  ∃ sys, get_sys_prompt name = Ok sys ∧ make_generation_dataset raw sys = Ok s.2.


(** The combination as the specification words it: the halves are
    concatenated and each concatenation is reordered by the primitive of the
    splitter, at the same seed. *)
Definition combine_as_specified `{Libraries} (all_train all_test : list Dataset)
    (seed : Z) : result DatasetDict :=
  combined_train <~ take_rows (sample_order seed (length (concat all_train)))
                      (concat all_train) ;;
  combined_test <~ take_rows (sample_order seed (length (concat all_test)))
                     (concat all_test) ;;
  Ok {| train := combined_train; test := combined_test |}.

(** The five instructions [make_healthcare_dataset] can append. *)
Definition instructions : list string :=
  [ fatigue_instruction; readiness_instruction; sleep_quality_instruction;
    stress_instruction; default_instruction ].

(** The prompt of [r] has two turns, the system text then a user turn
    built by [user_format]. *)
Definition two_turns (sys_prompt : string) (r : row) : Prop :=
  ∃ text, r !! "prompt" =
          Some (VConversation [ {| role := "system"; content := sys_prompt |};
                                {| role := "user"; content := user_format text |} ]).


(** The CSV paths a run warned about, in order. *)
Definition warned (events : list event) : list string :=
  omap (λ e, match e with WarnNotFound p => Some p | _ => None end) events.

(** The entries of [csv_files] whose file does not exist. *)
Definition missing (csv_files : list (string * string)) (fs : gmap string DataFrame)
  : list (string * string) :=
  filter (λ item, fs !! item.2 = None) csv_files.

(** The entry [results] holds for a prompt once it is processed. *)
Definition info_of (raw : DatasetDict) (output_dir name : string) : prompt_info :=
  {| path := save_path_of output_dir name;
     train_size := length (train raw);
     test_size := length (test raw) |}.

(* ===================================================================== *)
(** ** lifesnaps_healthcare.py: [main] *)
(* ===================================================================== *)

(** [main] once the command line is parsed. [args] is the namespace
    [parse_args] returns; [hub_name] is [None] when the option is not
    given. A dataset passes through the disk unchanged: [load_from_disk]
    returns what [save_to_disk] last wrote at the path. *)
Module Cli.

Record Args := {
  sys_prompt : string;
  train_ratio : Q;
  seed : Z;
  output_dir : string;
  push_to_hub : bool;
  hub_name : option string
}.

(** What [main] leaves behind: the events of the functions it calls, the
    lines it prints itself (line 230 prints a float and is kept by its
    value), and its two calls to the disk and to the hub (lines 250, 253
    and 264, always with [private=True]). *)
Inductive out :=
| Ran (e : event)
| Line (s : string)
| TrainRatioLine (r : Q)
| LoadFromDisk (path : string)
| PushToHub (hub_path : string) (ds : DatasetDict) (private : bool).

(** The datasets on disk after the events of a run. *)
Definition disk_of (events : list event) : gmap string DatasetDict :=
  foldl (λ disk e, match e with
                   | SaveToDisk p ds => <[ p := ds ]> disk
                   | _ => disk
                   end) ∅ events.

(** The truth value of [args.hub_name], a [str] or [None], and of
    [results], a [dict] or [None]. *)
Definition truthy_str (o : option string) : bool :=
  match o with
  | Some s => negb (String.eqb s EmptyString)
  | None => false
  end.

Definition truthy_results (o : option (gmap string prompt_info)) : bool :=
  match o with
  | Some results => negb (bool_decide (results = ∅))
  | None => false
  end.

(** [results.items()]: [results] is filled in the order of
    [ALL_SYS_PROMPTS], whose names are distinct, and a [dict] keeps the
    order of insertion. *)
Definition items (results : gmap string prompt_info) : list (string * prompt_info) :=
  omap (λ name, (λ info, (name, info)) <$> results !! name) ALL_SYS_PROMPTS.

(** The loop of lines 248 to 253. *)
Fixpoint push_all (hub : string) (its : list (string * prompt_info))
    (disk : gmap string DatasetDict) : list out * result unit :=
  match its with
  | [] => ([], Ok tt)
  | (prompt_name, info) :: its' =>
      match disk !! path info with
      | None => ([LoadFromDisk (path info)], Raise (FileNotFoundError (path info)))
      | Some ds =>
          let hub_path := hub +:+ "_" +:+ prompt_name in
          let '(ev, r) := push_all hub its' disk in
          (LoadFromDisk (path info)
           :: Line ("  Pushing " +:+ prompt_name +:+ " to " +:+ hub_path +:+ "...")
           :: PushToHub hub_path ds true :: ev, r)
      end
  end.

Definition intro (args : Args) : list out :=
  [ Line (nl +:+ rule); Line "LifeSnaps Healthcare Dataset Processing"; Line rule;
    Line ("System prompt: " +:+ sys_prompt args);
    TrainRatioLine (train_ratio args);
    Line ("Seed: " +:+ str_int (seed args));
    Line ("Output directory: " +:+ output_dir args);
    Line (nl +:+ "Tasks:");
    Line "  - sleep_disorder: Binary classification (0 or 1)";
    Line "  - stress_resilience: Regression (0.2 to 5)" ].

Definition complete : list out :=
  [ Line (nl +:+ rule); Line "Processing complete!"; Line rule ].

Definition summary (args : Args) : list out :=
  if String.eqb (sys_prompt args) "all" then
    [ Line (nl +:+ "Generated datasets:") ] ++
    ((λ prompt_name,
        Line ("  - " +:+ output_dir args +:+ "/lifesnaps_" +:+ prompt_name +:+ "/"))
       <$> ALL_SYS_PROMPTS) ++
    [ Line (nl +:+ "To load a dataset:");
      Line "  from datasets import load_from_disk";
      Line ("  dataset = load_from_disk('" +:+ output_dir args +:+ "/lifesnaps_tabc')") ]
  else
    [ Line (nl +:+ "To load the dataset:");
      Line "  from datasets import load_from_disk";
      Line ("  dataset = load_from_disk('" +:+ output_dir args +:+ "/lifesnaps_"
            +:+ sys_prompt args +:+ "')") ].

(** Lines 238 to 264: the datasets are made, then pushed if asked. *)
Definition make_and_push `{Libraries} (args : Args) (fs : gmap string DataFrame)
  : list out * result unit :=
  let hub := default EmptyString (hub_name args) in
  if String.eqb (sys_prompt args) "all" then
    let '(ev, r) := create_datasets_for_all_prompts CSV_FILES (output_dir args)
                      (train_ratio args) (seed args) fs in
    match r with
    | inl e => (Ran <$> ev, Raise e)
    | inr results =>
        if push_to_hub args && truthy_str (hub_name args) && truthy_results results
        then
          let '(pev, pr) := push_all hub (items (default ∅ results)) (disk_of ev) in
          ((Ran <$> ev) ++
           [ Line (nl +:+ rule); Line "Pushing to HuggingFace Hub"; Line rule ] ++ pev, pr)
        else (Ran <$> ev, Ok tt)
    end
  else
    let '(ev, r) := create_dataset_for_single_prompt CSV_FILES (output_dir args)
                      (sys_prompt args) (train_ratio args) (seed args) fs in
    match r with
    | inl e => (Ran <$> ev, Raise e)
    | inr None => (Ran <$> ev, Ok tt)
    | inr (Some processed) =>
        if push_to_hub args && truthy_str (hub_name args)
        then
          let hub_path := hub +:+ "_" +:+ sys_prompt args in
          ((Ran <$> ev) ++
           [ Line (nl +:+ "Pushing to HuggingFace Hub: " +:+ hub_path);
             PushToHub hub_path processed true ], Ok tt)
        else (Ran <$> ev, Ok tt)
    end.

Definition main `{Libraries} (args : Args) (fs : gmap string DataFrame)
  : list out * result unit :=
  let '(ev, r) := make_and_push args fs in
  match r with
  | inl e => (intro args ++ ev, Raise e)
  | inr _ => (intro args ++ ev ++ complete ++ summary args, Ok tt)
  end.

(** The datasets a run pushed, with the hub path of each, in order. *)
Definition pushes (events : list out) : list (string * DatasetDict) :=
  omap (λ e, match e with PushToHub h ds _ => Some (h, ds) | _ => None end) events.

End Cli.

(* ===================================================================== *)
(** ** A stand-in for the libraries, to run the scripts on examples *)
(* ===================================================================== *)

Module StandIn.

(** The positions rotated left by [seed mod n]. *)
Definition rotate_order (seed : Z) (n : nat) : list nat :=
  let k := Z.to_nat (seed mod Z.of_nat n) in
  drop k (seq 0 n) ++ take k (seq 0 n).

(** The positions from last to first. *)
Definition reverse_order (seed : Z) (n : nat) : list nat := reverse (seq 0 n).

Definition sys_prompts (name : string) : result string :=
  if String.eqb name "gen" then Ok "Answer the problem."
  else if String.eqb name "tac" then Ok "Think, answer, then give a confidence."
  else if String.eqb name "tabc" then Ok "Think, answer, analyse, then give a confidence."
  else if String.eqb name "tabc_long" then Ok "Think at length, answer, analyse, then give a confidence."
  else Raise (ValueError name).

(** The splitter rotates, the combiner reverses. *)
Definition libs : Libraries.
Proof.
  refine {| sample_order := rotate_order; shuffle_order := reverse_order;
            get_sys_prompt := sys_prompts |}.
  - intros seed n. unfold rotate_order.
    rewrite Permutation_app_comm. by rewrite take_drop.
  - intros seed n. unfold reverse_order. by rewrite reverse_Permutation.
Defined.

Definition record (problem : string) (answer : value) (source : string) : row :=
  {[ "problem" := VStr problem; "answer" := answer; "source" := VStr source ]}.

Definition header3 : list string := [ "problem"; "answer"; "source" ].

(** A source of ten binary labels and a source of four regression
    targets. *)
Definition sleep : DataFrame :=
  {| columns := header3;
     rows := (λ i, record ("s" +:+ str_int (Z.of_nat i)) (VInt (Z.of_nat i mod 2)) "sleep")
               <$> seq 0 10 |}.

Definition stress : DataFrame :=
  {| columns := header3;
     rows := [ record "t0" (VFloat "3.5") "stress"; record "t1" (VFloat "0.2") "stress";
               record "t2" (VFloat "4.25") "stress"; record "t3" (VFloat "5.0") "stress" ] |}.

Definition files : list (string * string) :=
  [ ("sleep_disorder", "sleep.csv"); ("missing", "nowhere.csv");
    ("stress_resilience", "stress.csv") ].

Definition disk : gmap string DataFrame :=
  {[ "sleep.csv" := sleep; "stress.csv" := stress ]}.

End StandIn.

(* ===================================================================== *)
(** ** Results and maps that may raise *)
(* ===================================================================== *)

Lemma rmapM_Ok {A B} (f : A → result B) l k :
  rmapM f l = Ok k ↔ Forall2 (λ x y, f x = Ok y) l k.
Proof.
  revert k. induction l as [|x l IH]; intros k; simpl.
  - split.
    + intros [= <-]. constructor.
    + intros Hk. by inversion Hk.
  - split.
    + destruct (f x) as [e|y] eqn:Hx; simpl; [done|].
      destruct (rmapM f l) as [e|ys] eqn:Hl; simpl; [done|].
      intros [= <-]. constructor; [done|]. by apply IH.
    + intros Hk. inversion Hk as [|? y ? ys Hy Hys]; subst.
      rewrite Hy. simpl. apply IH in Hys. by rewrite Hys.
Qed.

(** If one element raises, the map raises, whatever comes before it. *)
Lemma rmapM_elem_Raise {A B} (f : A → result B) l x e :
  x ∈ l → f x = Raise e → ∃ e', rmapM f l = Raise e'.
Proof.
  intros Hin Hx. induction l as [|y l IH]; [by apply elem_of_nil in Hin|].
  simpl. destruct (f y) as [e1|z] eqn:Hy; [by eexists|]. simpl.
  apply elem_of_cons in Hin as [->|Hin]; [congruence|].
  destruct (IH Hin) as [e' ->]. by eexists.
Qed.

(* ===================================================================== *)
(** ** Selecting rows by position *)
(* ===================================================================== *)

Lemma take_rows_Ok positions (l k : list row) :
  take_rows positions l = Ok k ↔ Forall2 (λ i r, l !! i = Some r) positions k.
Proof.
  unfold take_rows. rewrite rmapM_Ok. split; intros Hk.
  - eapply Forall2_impl; [done|]. intros i r. simpl.
    destruct (l !! i); [by intros [= ->]|done].
  - eapply Forall2_impl; [done|]. intros i r. simpl. by intros ->.
Qed.

Lemma seq_lookup_all {A} (l : list A) :
  Forall2 (λ i r, l !! i = Some r) (seq 0 (length l)) l.
Proof.
  apply Forall2_same_length_lookup_2; [by rewrite length_seq|].
  intros i j r Hj Hr. apply lookup_seq in Hj as [-> _]. done.
Qed.

(** A selection by a permutation of all the positions never raises, keeps
    every row exactly once, and puts at place [i] the row whose position is
    the [i]-th of the permutation. *)
Lemma take_rows_perm positions (l : list row) :
  positions ≡ₚ seq 0 (length l) →
  ∃ k, take_rows positions l = Ok k ∧ k ≡ₚ l ∧ length k = length l ∧
       ∀ i, k !! i = positions !! i ≫= (l !!.).
Proof.
  intros Hp. symmetry in Hp.
  destruct (Permutation_Forall2 Hp (seq_lookup_all l)) as (k & Hk & Hall).
  exists k. split; [by apply take_rows_Ok|]. split; [done|].
  split; [by rewrite <-Hk|].
  intros i. destruct (positions !! i) as [j|] eqn:Hj; simpl.
  - destruct (Forall2_lookup_l _ _ _ _ _ Hall Hj) as (r & -> & Hr). done.
  - apply lookup_ge_None. apply lookup_ge_None in Hj.
    by rewrite <-(Forall2_length _ _ _ Hall).
Qed.

(* ===================================================================== *)
(** ** Slices and the cut position *)
(* ===================================================================== *)

Lemma slice_to_from {A} (k : Z) (l : list A) : slice_to k l ++ slice_from k l = l.
Proof. apply take_drop. Qed.

Lemma slice_pos_nonneg n (k : Z) : (0 ≤ k)%Z → slice_pos n k = Z.to_nat k.
Proof.
  intros Hk. unfold slice_pos. destruct (Z.ltb_spec k 0); [lia|done].
Qed.

(** For a ratio strictly between 0 and 1, [int] is the floor of the
    product, and the cut falls inside the frame. *)
Lemma int_of_floor (n : nat) (r : Q) :
  (0 < r)%Q → (r < 1)%Q →
  int_of (inject_Z (Z.of_nat n) * r)%Q = Qfloor (inject_Z (Z.of_nat n) * r)%Q ∧
  (0 ≤ Qfloor (inject_Z (Z.of_nat n) * r)%Q ≤ Z.of_nat n)%Z.
Proof.
  destruct r as [a b]. unfold Qlt, int_of, Qfloor. simpl.
  intros Ha Hb.
  assert (0 < a)%Z as Ha' by lia.
  assert (a < Z.pos b)%Z as Hb' by lia.
  rewrite Z.quot_div_nonneg by lia.
  split; [done|]. split.
  - apply Z.div_pos; lia.
  - apply Z.div_le_upper_bound; [lia|]. nia.
Qed.

(* ===================================================================== *)
(** ** The splitter and the combiner *)
(* ===================================================================== *)

Section Pipeline.
Context `{Libraries}.

Lemma len_coerce_answer df : len (coerce_answer df) = len df.
Proof.
  unfold coerce_answer, len. case_decide; [|done]. simpl. by rewrite length_fmap.
Qed.

(** The shape of a split: the rows, once the answer is coerced, are
    selected in the order the sampler gives for the seed and the number of
    rows, and the selection is sliced at [split_idx]. *)
Lemma split_frame_shape df train_ratio seed :
  let S := rows (coerce_answer df) in
  ∃ shuffled,
    take_rows (sample_order seed (length S)) S = Ok shuffled ∧
    shuffled ≡ₚ S ∧ length shuffled = length S ∧
    (∀ i, shuffled !! i = sample_order seed (length S) !! i ≫= (S !!.)) ∧
    split_frame df train_ratio seed =
      Ok (slice_to (split_idx (coerce_answer df) train_ratio) shuffled,
          slice_from (split_idx (coerce_answer df) train_ratio) shuffled).
Proof.
  intros S.
  destruct (take_rows_perm (sample_order seed (length S)) S
              (sample_order_perm seed _)) as (k & Hk & Hperm & Hlen & Hidx).
  exists k. repeat split; try done.
  unfold split_frame, sample_all. fold S. unfold len at 1. fold S.
  rewrite Hk. simpl. unfold from_pandas, split_idx, len. simpl.
  by rewrite Hlen.
Qed.

Lemma shuffle_shape (ds : Dataset) seed :
  ∃ shuffled,
    shuffle ds seed = Ok shuffled ∧ shuffled ≡ₚ ds ∧
    length shuffled = length ds ∧
    (∀ i, shuffled !! i = shuffle_order seed (length ds) !! i ≫= (ds !!.)).
Proof. apply take_rows_perm, shuffle_order_perm. Qed.

(** The shape of a combination: each half is the concatenation of the
    per-source halves, in source order, selected in the order the dataset
    shuffle gives for the seed and the total size. *)
Lemma combine_shape all_train all_test seed :
  ∃ tr te,
    combine all_train all_test seed = Ok {| train := tr; test := te |} ∧
    shuffle (concat all_train) seed = Ok tr ∧
    shuffle (concat all_test) seed = Ok te ∧
    tr ≡ₚ concat all_train ∧ te ≡ₚ concat all_test.
Proof.
  destruct (shuffle_shape (concat all_train) seed) as (tr & Htr & Hptr & _).
  destruct (shuffle_shape (concat all_test) seed) as (te & Hte & Hpte & _).
  exists tr, te. unfold combine, concatenate_datasets.
  rewrite Htr, Hte. done.
Qed.

Lemma length_concat_sum {A} (ls : list (list A)) :
  length (concat ls) = sum_list (length <$> ls).
Proof. induction ls as [|l ls IH]; [done|]. cbn. by rewrite length_app, IH. Qed.

End Pipeline.

(* ===================================================================== *)
(** ** The templaters *)
(* ===================================================================== *)

Lemma make_generation_conversation_Ok sys_prompt example out :
  make_generation_conversation sys_prompt example = Ok out ↔
  ∃ v, problem_field example = Some v ∧
       out = {[ "prompt" := VConversation (prompt_of sys_prompt (user_format (py_str v))) ]}.
Proof.
  unfold make_generation_conversation, problem_field, getitem.
  destruct (example !! "question") as [q|] eqn:Hq.
  - rewrite decide_True by eauto. simpl. split.
    + intros [= <-]. eauto.
    + intros (v & [= <-] & ->). done.
  - rewrite decide_False by (intros [? ?]; done).
    destruct (example !! "problem") as [p|]; simpl; split.
    + intros [= <-]. eauto.
    + intros (v & [= <-] & ->). done.
    + done.
    + intros (v & ? & _). done.
Qed.

Lemma make_generation_conversation_Raise sys_prompt example e :
  make_generation_conversation sys_prompt example = Raise e →
  e = KeyError "problem" ∧ problem_field example = None.
Proof.
  unfold make_generation_conversation, problem_field, getitem.
  destruct (example !! "question") as [q|] eqn:Hq.
  - rewrite decide_True by eauto. done.
  - rewrite decide_False by (intros [? ?]; done).
    destruct (example !! "problem") as [p|]; simpl; [done|].
    by intros [= <-].
Qed.

Lemma dataset_map_generation sys_prompt (ds out : Dataset) :
  dataset_map (make_generation_conversation sys_prompt) ds = Ok out ↔
  Forall2 (templated sys_prompt) ds out.
Proof.
  unfold dataset_map. rewrite rmapM_Ok.
  enough (∀ r r', (out <~ make_generation_conversation sys_prompt r ;; Ok (out ∪ r)) = Ok r'
                  ↔ templated sys_prompt r r') as Hiff.
  { split; intros Hall; (eapply Forall2_impl; [exact Hall|]); intros r r'; apply Hiff. }
  intros r r'. unfold templated. split.
  - destruct (make_generation_conversation sys_prompt r) as [e|o] eqn:Ho; [done|].
    simpl. intros [= <-].
    apply make_generation_conversation_Ok in Ho as (v & Hv & ->).
    exists v. split; [done|]. by rewrite insert_union_singleton_l.
  - intros (v & Hv & ->).
    assert (make_generation_conversation sys_prompt r =
            Ok {[ "prompt" := VConversation (prompt_of sys_prompt (user_format (py_str v))) ]})
      as -> by (apply make_generation_conversation_Ok; eauto).
    simpl. by rewrite insert_union_singleton_l.
Qed.

Lemma make_generation_dataset_dict sys_prompt (dd out : DatasetDict) :
  make_generation_dataset dd sys_prompt = Ok out ↔
  Forall2 (templated sys_prompt) (train dd) (train out) ∧
  Forall2 (templated sys_prompt) (test dd) (test out).
Proof.
  unfold make_generation_dataset, dmap, DatasetDict_mappable.
  rewrite <-!dataset_map_generation. split.
  - destruct (dataset_map _ (train dd)) as [e|tr]; [done|]. simpl.
    destruct (dataset_map _ (test dd)) as [e|te]; [done|]. simpl.
    by intros [= <-].
  - destruct out as [tr te]. simpl. by intros [-> ->].
Qed.

Lemma templated_triple sys_prompt r r' : templated sys_prompt r r' → triple r' = triple r.
Proof.
  intros (v & _ & ->). unfold triple. by rewrite !lookup_insert_ne.
Qed.

Lemma templated_answer sys_prompt r r' :
  templated sys_prompt r r' → r' !! "answer" = r !! "answer".
Proof. intros Ht. apply templated_triple in Ht. unfold triple in Ht. congruence. Qed.

Lemma templated_same_but_system sys1 sys2 r r1 r2 :
  templated sys1 r r1 → templated sys2 r r2 → same_but_system r1 r2.
Proof.
  intros (v1 & Hv1 & ->) (v2 & Hv2 & ->).
  assert (v2 = v1) as -> by congruence.
  split.
  - by rewrite !delete_insert_eq.
  - exists sys1, sys2, (user_format (py_str v1)). by rewrite !lookup_insert_eq.
Qed.

Lemma Forall2_templated_triples sys_prompt (ds out : Dataset) :
  Forall2 (templated sys_prompt) ds out → triple <$> out = triple <$> ds.
Proof.
  induction 1 as [|r r' ds out Hr _ IH]; [done|].
  cbn. f_equal; [by eapply templated_triple|done].
Qed.

Lemma Forall2_templated_same sys1 sys2 (ds out1 out2 : Dataset) :
  Forall2 (templated sys1) ds out1 → Forall2 (templated sys2) ds out2 →
  Forall2 same_but_system out1 out2.
Proof.
  intros H1. revert out2.
  induction H1 as [|r r1 ds out1 Hr _ IH]; intros out2 H2; inversion H2; subst.
  - constructor.
  - constructor; [by eapply templated_same_but_system|by apply IH].
Qed.

(* ===================================================================== *)
(** ** Runs of the scripts *)
(* ===================================================================== *)

Lemma sbind_emit {A} e (k : unit → script A) fs :
  sbind (emit e) k fs = after [e] (k tt fs).
Proof. unfold sbind, emit, after. simpl. by destruct (k tt fs). Qed.

Lemma sbind_sbind {A B C} (m : script A) (k : A → script B) (k' : B → script C) fs :
  sbind (sbind m k) k' fs = sbind m (λ a, sbind (k a) k') fs.
Proof.
  unfold sbind. destruct (m fs) as [ev [e|a]]; [done|].
  destruct (k a fs) as [ev1 [e|b]]; [done|].
  destruct (k' b fs) as [ev2 r]. by rewrite app_assoc.
Qed.

Lemma sbind_Ok {A B} (m : script A) (k : A → script B) fs ev a :
  m fs = (ev, Ok a) → sbind m k fs = after ev (k a fs).
Proof. unfold sbind, after. intros ->. by destruct (k a fs). Qed.

Lemma sbind_Raise {A B} (m : script A) (k : A → script B) fs ev e :
  m fs = (ev, Raise e) → sbind m k fs = (ev, Raise e).
Proof. unfold sbind. by intros ->. Qed.

Lemma after_after {A} ev1 ev2 (run : list event * result A) :
  after ev1 (after ev2 run) = after (ev1 ++ ev2) run.
Proof. unfold after. simpl. by rewrite app_assoc. Qed.

Lemma header_run {A} title (k : unit → script A) fs :
  sbind (header title) k fs =
  after [Say (nl +:+ rule); Say title; Say rule] (k tt fs).
Proof.
  unfold header.
  rewrite sbind_sbind, sbind_emit. cbv beta.
  rewrite sbind_sbind, sbind_emit. cbv beta.
  rewrite sbind_emit, !after_after. done.
Qed.

Lemma sbind_sret_events {A B} (m : script A) (f : A → B) fs :
  (sbind m (λ a, sret (f a)) fs).1 = (m fs).1.
Proof.
  unfold sbind, sret. destruct (m fs) as [ev [e|a]]; [done|].
  cbn. by rewrite app_nil_r.
Qed.

Section Runs.
Context `{Libraries}.

Lemma split_frame_total df train_ratio seed :
  ∃ sp, split_frame df train_ratio seed = Ok sp.
Proof.
  destruct (split_frame_shape df train_ratio seed) as (k & _ & _ & _ & _ & ->).
  by eexists.
Qed.

Lemma load_loop_present task p items train_ratio seed all_train all_test fs df sp :
  fs !! p = Some df → split_frame df train_ratio seed = Ok sp →
  load_loop ((task, p) :: items) train_ratio seed all_train all_test fs =
  after [Loading p; TaskSizes task (length sp.1) (length sp.2)]
    (load_loop items train_ratio seed (all_train ++ [sp.1]) (all_test ++ [sp.2]) fs).
Proof.
  intros Hp Hsp. cbn [load_loop].
  rewrite (sbind_Ok _ _ fs [] true)
    by (unfold path_exists; by rewrite Hp, bool_decide_eq_true_2).
  rewrite (sbind_Ok _ _ fs [Loading p] sp).
  - rewrite sbind_emit, !after_after. done.
  - unfold load_single_csv. rewrite sbind_emit.
    rewrite (sbind_Ok _ _ fs [] df) by (unfold read_csv; by rewrite Hp).
    unfold lift, after. simpl. by rewrite Hsp.
Qed.

Lemma load_loop_missing task p items train_ratio seed all_train all_test fs :
  fs !! p = None →
  load_loop ((task, p) :: items) train_ratio seed all_train all_test fs =
  after [WarnNotFound p]
    (load_loop items train_ratio seed all_train all_test fs).
Proof.
  intros Hp. cbn [load_loop].
  rewrite (sbind_Ok _ _ fs [] false).
  - rewrite sbind_emit, !after_after. done.
  - unfold path_exists. rewrite Hp, bool_decide_eq_false_2; [done|].
    by intros [? ?].
Qed.

(** The loop loads every existing file once, in the order of
    [csv_files], and appends its two halves to the accumulators. *)
Lemma load_loop_run items train_ratio seed all_train all_test fs :
  ∃ events splits,
    load_loop items train_ratio seed all_train all_test fs =
      (events, Ok (all_train ++ splits.*1, all_test ++ splits.*2)) ∧
    Forall2 (λ it sp, split_frame it.2 train_ratio seed = Ok sp)
      (present items fs) splits ∧
    loads events = (λ it, it.1.2) <$> present items fs ∧
    saves events = [] ∧ processed_prompts events = [] ∧
    (present items fs = [] → events = WarnNotFound <$> items.*2).
Proof.
  revert all_train all_test.
  induction items as [|[task p] items IH]; intros all_train all_test.
  - exists [], []. cbn. rewrite !app_nil_r. repeat split; done || constructor.
  - destruct (fs !! p) as [df|] eqn:Hp.
    + destruct (split_frame_total df train_ratio seed) as [sp Hsp].
      destruct (IH (all_train ++ [sp.1]) (all_test ++ [sp.2]))
        as (ev & splits & Hrun & Hall & Hloads & Hsaves & Hproc & _).
      exists ([Loading p; TaskSizes task (length sp.1) (length sp.2)] ++ ev), (sp :: splits).
      rewrite (load_loop_present _ _ _ _ _ _ _ _ df sp) by done.
      rewrite Hrun. unfold after. cbn [fst snd fmap list_fmap].
      rewrite <-!app_assoc. cbn [app].
      unfold present in *. cbn [omap list_omap]. cbn [snd]. rewrite Hp. cbn.
      repeat split; try done.
      * by constructor.
      * unfold loads in *. cbn. by rewrite Hloads.
    + destruct (IH all_train all_test)
        as (ev & splits & Hrun & Hall & Hloads & Hsaves & Hproc & Hnone).
      exists ([WarnNotFound p] ++ ev), splits.
      rewrite load_loop_missing by done.
      rewrite Hrun. unfold after. cbn [fst snd].
      unfold present in *. cbn [omap list_omap]. cbn [snd]. rewrite Hp. cbn.
      repeat split; try done.
      intros Hnil. by rewrite (Hnone Hnil).
Qed.

(** A run of [load_all_csv_files]: nothing to combine and [None], or
    the combination of the halves of the files that exist. *)
Lemma load_all_csv_files_run csv_files train_ratio seed fs :
  ∃ events splits,
    Forall2 (λ it sp, split_frame it.2 train_ratio seed = Ok sp)
      (present csv_files fs) splits ∧
    loads events = (λ it, it.1.2) <$> present csv_files fs ∧
    saves events = [] ∧ processed_prompts events = [] ∧
    match splits with
    | [] =>
        load_all_csv_files csv_files train_ratio seed fs = (events, Ok None) ∧
        events = (WarnNotFound <$> csv_files.*2) ++ [ErrNoValidCsv]
    | _ =>
        ∃ raw, combine splits.*1 splits.*2 seed = Ok raw ∧
               load_all_csv_files csv_files train_ratio seed fs = (events, Ok (Some raw))
    end.
Proof.
  destruct (load_loop_run csv_files train_ratio seed [] [] fs)
    as (ev & splits & Hrun & Hall & Hloads & Hsaves & Hproc & Hnone).
  cbn [app] in Hrun. unfold load_all_csv_files.
  rewrite (sbind_Ok _ _ fs ev _ Hrun). cbn [fst snd].
  destruct splits as [|sp splits].
  - exists (ev ++ [ErrNoValidCsv]), []. cbn [fmap list_fmap].
    rewrite sbind_emit. unfold after, sret, loads, saves, processed_prompts in *.
    cbn [fst snd]. rewrite !omap_app, ?Hloads, ?Hsaves, ?Hproc. cbn.
    rewrite !app_nil_r.
    apply Forall2_nil_inv_r in Hall. rewrite Hnone by done.
    repeat split; try done. by rewrite Hall.
  - exists ev, (sp :: splits). cbn [fmap list_fmap].
    destruct (combine_shape (sp.1 :: splits.*1) (sp.2 :: splits.*2) seed)
      as (tr & te & Hc & _).
    repeat split; try done.
    exists {| train := tr; test := te |}. split; [done|].
    rewrite (sbind_Ok _ _ fs [] {| train := tr; test := te |})
      by (unfold lift; by rewrite Hc).
    unfold after, sret. cbn. by rewrite !app_nil_r.
Qed.

Lemma create_dataset_for_prompt_run raw name output_dir fs :
  (∃ sys processed,
      get_sys_prompt name = Ok sys ∧
      make_generation_dataset raw sys = Ok processed ∧
      create_dataset_for_prompt raw name output_dir fs =
        ([SaveToDisk (save_path_of output_dir name) processed],
         Ok (processed, save_path_of output_dir name))) ∨
  (∃ e, create_dataset_for_prompt raw name output_dir fs = ([], Raise e) ∧
        (get_sys_prompt name = Raise e ∨
         ∃ sys, get_sys_prompt name = Ok sys ∧
                make_generation_dataset raw sys = Raise e)).
Proof.
  unfold create_dataset_for_prompt, process_dataset. cbn [sys_prompt_name task_spec].
  destruct (get_sys_prompt name) as [e|sys] eqn:Hsys.
  { right. exists e. split; [|by left]. by apply sbind_Raise. }
  cbn [rbind]. rewrite decide_True by done.
  destruct (make_generation_dataset raw sys) as [e|processed] eqn:Hgen.
  { right. exists e. split; [|right; eauto]. by apply sbind_Raise. }
  left. exists sys, processed. by repeat split.
Qed.

Lemma prompts_loop_loads names raw output_dir results fs :
  loads (prompts_loop names raw output_dir results fs).1 = [].
Proof.
  revert results. induction names as [|name names IH]; intros results; [done|].
  cbn [prompts_loop]. rewrite sbind_emit.
  destruct (create_dataset_for_prompt_run raw name output_dir fs)
    as [(sys & processed & _ & _ & Hrun)|(e & Hrun & _)].
  - rewrite (sbind_Ok _ _ fs _ _ Hrun). rewrite !sbind_emit, !after_after.
    unfold after, loads. cbn [fst]. rewrite omap_app. cbn.
    apply IH.
  - by rewrite (sbind_Raise _ _ fs _ _ Hrun).
Qed.

Lemma prompts_loop_saves names raw output_dir results fs events res :
  prompts_loop names raw output_dir results fs = (events, Ok res) →
  Forall2 (saved_for raw output_dir) names (saves events) ∧
  processed_prompts events = names.
Proof.
  revert results events. induction names as [|name names IH]; intros results events.
  { cbn. intros [= <- _]. split; [constructor|done]. }
  cbn [prompts_loop]. rewrite sbind_emit.
  destruct (create_dataset_for_prompt_run raw name output_dir fs)
    as [(sys & processed & Hsys & Hgen & Hrun)|(e & Hrun & _)].
  - rewrite (sbind_Ok _ _ fs _ _ Hrun). rewrite !sbind_emit, !after_after.
    destruct (prompts_loop names raw output_dir _ fs) as [ev r] eqn:Hloop.
    unfold after. cbn [fst snd]. intros [= <- ->].
    apply IH in Hloop as [Hall Hproc].
    unfold saves, processed_prompts in *. cbn. split.
    + constructor; [|done]. split; [done|]. exists sys. by split.
    + by rewrite Hproc.
  - rewrite (sbind_Raise _ _ fs _ _ Hrun). unfold after. cbn. done.
Qed.

End Runs.

(* ===================================================================== *)
(** ** One corpus for every prompt *)
(* ===================================================================== *)

Lemma loads_app ev1 ev2 : loads (ev1 ++ ev2) = loads ev1 ++ loads ev2.
Proof. apply omap_app. Qed.

Lemma saves_app ev1 ev2 : saves (ev1 ++ ev2) = saves ev1 ++ saves ev2.
Proof. apply omap_app. Qed.

Lemma processed_prompts_app ev1 ev2 :
  processed_prompts (ev1 ++ ev2) = processed_prompts ev1 ++ processed_prompts ev2.
Proof. apply omap_app. Qed.

Section Orchestrator.
Context `{Libraries}.

Lemma saved_for_templated raw output_dir names (saved : list (string * DatasetDict)) s :
  Forall2 (saved_for raw output_dir) names saved → s ∈ saved →
  ∃ sys, Forall2 (templated sys) (train raw) (train s.2) ∧
         Forall2 (templated sys) (test raw) (test s.2).
Proof.
  intros Hall Hs. apply list_elem_of_lookup in Hs as [i Hi].
  destruct (Forall2_lookup_r _ _ _ _ _ Hall Hi) as (name & _ & _ & sys & _ & Hgen).
  exists sys. by apply make_generation_dataset_dict.
Qed.

(** C1. A run for any list of prompt names loads each existing CSV file
    once, in the order of [csv_files], whatever the number of prompts, and
    combines the halves once into one corpus [raw]; it processes the
    prompts in order and saves for each, at its own path, [raw] templated
    with the system prompt of that name. So any two saved corpora have the
    same sequences of [(problem, answer, source)] triples as [raw], in
    [train] and in [test], and their rows are equal but for the content of
    the system turn. *)
Theorem one_corpus_for_every_prompt names csv_files output_dir train_ratio seed
    fs events results :
  create_datasets_for_prompts names csv_files output_dir train_ratio seed fs
    = (events, Ok (Some results)) →
  ∃ raw,
    (load_all_csv_files csv_files train_ratio seed fs).2 = Ok (Some raw) ∧
    loads events = (λ it, it.1.2) <$> present csv_files fs ∧
    processed_prompts events = names ∧
    Forall2 (saved_for raw output_dir) names (saves events) ∧
    ∀ s1 s2, s1 ∈ saves events → s2 ∈ saves events →
      triple <$> train s1.2 = triple <$> train raw ∧
      triple <$> train s2.2 = triple <$> train raw ∧
      triple <$> test s1.2 = triple <$> test raw ∧
      triple <$> test s2.2 = triple <$> test raw ∧
      Forall2 same_but_system (train s1.2) (train s2.2) ∧
      Forall2 same_but_system (test s1.2) (test s2.2).
Proof.
  unfold create_datasets_for_prompts.
  rewrite sbind_emit, header_run.
  destruct (load_all_csv_files_run csv_files train_ratio seed fs)
    as (ev & splits & _ & Hloads & Hsaves & Hproc & Hcase).
  destruct splits as [|sp splits].
  { destruct Hcase as [Hrun _]. rewrite (sbind_Ok _ _ fs _ _ Hrun).
    unfold after, sret. cbn. done. }
  destruct Hcase as (raw & _ & Hrun). rewrite (sbind_Ok _ _ fs _ _ Hrun).
  rewrite sbind_emit, header_run, !after_after.
  pose proof (prompts_loop_loads names raw output_dir ∅ fs) as Hl.
  destruct (prompts_loop names raw output_dir ∅ fs) as [ev' [e|res]] eqn:Hloop.
  { rewrite (sbind_Raise _ _ fs _ _ Hloop). unfold after. cbn. done. }
  rewrite (sbind_Ok _ _ fs _ _ Hloop). unfold after, sret. cbn [fst snd].
  intros [= <- _]. apply prompts_loop_saves in Hloop as [Hall Hnames].
  match goal with |- context [loads ?E] => set (all := E) end.
  assert (all = [MakeDirs output_dir; Say (nl +:+ rule);
                 Say "Step 1: Loading all CSV files"; Say rule] ++ ev ++
                [TotalSamples (length (train raw)) (length (test raw));
                 Say (nl +:+ rule);
                 Say "Step 2: Creating datasets for each system prompt"; Say rule] ++
                ev') as Hall_eq.
  { unfold all. cbn. rewrite <-!app_assoc, app_nil_r. done. }
  clearbody all. subst all. cbn [fst] in Hl.
  rewrite !loads_app, !saves_app, !processed_prompts_app.
  rewrite Hloads, Hl, Hsaves, Hproc, Hrun. cbn. rewrite !app_nil_r.
  exists raw. split; [done|]. split; [done|]. split; [done|]. split; [done|].
  intros s1 s2 Hs1 Hs2.
  destruct (saved_for_templated _ _ _ _ _ Hall Hs1) as (sys1 & Htr1 & Hte1).
  destruct (saved_for_templated _ _ _ _ _ Hall Hs2) as (sys2 & Htr2 & Hte2).
  split; [by eapply Forall2_templated_triples|].
  split; [by eapply Forall2_templated_triples|].
  split; [by eapply Forall2_templated_triples|].
  split; [by eapply Forall2_templated_triples|].
  split; by eapply Forall2_templated_same.
Qed.

End Orchestrator.

Lemma one_corpus_for_every_prompt_witness :
  ∃ events results raw,
    @create_datasets_for_all_prompts StandIn.libs StandIn.files "out"
      DEFAULT_TRAIN_RATIO DEFAULT_SEED StandIn.disk = (events, Ok (Some results)) ∧
    (@load_all_csv_files StandIn.libs StandIn.files (8 # 10)%Q 42 StandIn.disk).2
      = Ok (Some raw) ∧
    loads events = ["sleep.csv"; "stress.csv"] ∧
    ∀ s1 s2, s1 ∈ saves events → s2 ∈ saves events →
      triple <$> train s1.2 = triple <$> train s2.2 ∧
      Forall2 same_but_system (train s1.2) (train s2.2).
Proof.
  eexists _, _.
  destruct (@one_corpus_for_every_prompt StandIn.libs ALL_SYS_PROMPTS StandIn.files
              "out" DEFAULT_TRAIN_RATIO DEFAULT_SEED StandIn.disk _ _ eq_refl)
    as (raw & Hraw & Hloads & _ & _ & Hany).
  exists raw. split; [reflexivity|]. split; [exact Hraw|]. split; [exact Hloads|].
  intros s1 s2 Hs1 Hs2. destruct (Hany s1 s2 Hs1 Hs2) as (E1 & E2 & _ & _ & Hsame & _).
  split; [congruence|exact Hsame].
Defined.

(* ===================================================================== *)
(** ** Determinism *)
(* ===================================================================== *)

Section Determinism.
Context `{Libraries}.

Lemma load_single_csv_agree p train_ratio seed (fs1 fs2 : gmap string DataFrame) :
  fs1 !! p = fs2 !! p →
  load_single_csv p train_ratio seed fs1 = load_single_csv p train_ratio seed fs2.
Proof.
  intros Hp. unfold load_single_csv, sbind, emit, read_csv, lift. by rewrite Hp.
Qed.

Lemma load_loop_agree items train_ratio seed all_train all_test
    (fs1 fs2 : gmap string DataFrame) :
  (∀ it, it ∈ items → fs1 !! it.2 = fs2 !! it.2) →
  load_loop items train_ratio seed all_train all_test fs1 =
  load_loop items train_ratio seed all_train all_test fs2.
Proof.
  revert all_train all_test.
  induction items as [|[task p] items IH]; intros all_train all_test Hagree; [done|].
  assert (fs1 !! p = fs2 !! p) as Hp by (apply (Hagree (task, p)); left).
  assert (∀ it, it ∈ items → fs1 !! it.2 = fs2 !! it.2) as Hrest
    by (intros it Hit; apply Hagree; by right).
  destruct (fs2 !! p) as [df|] eqn:Hp2.
  - destruct (split_frame_total df train_ratio seed) as [sp Hsp].
    rewrite !(load_loop_present _ _ _ _ _ _ _ _ df sp) by done.
    by rewrite IH.
  - rewrite !load_loop_missing by done. by rewrite IH.
Qed.

(** C2. The order in which a split returns the rows of a frame is fixed
    by the seed and the number of rows: position [i] of [train ++ test]
    holds the row whose position in the frame is the [i]-th of the
    sampler's order for that seed and that length. The same holds of each
    half of a combination, for the order of the dataset shuffle at the
    seed and the size of the concatenation. And two runs of the loader on
    file systems that agree on the files of [csv_files] print the same
    lines and return the same corpus, row for row; so does each split. *)
Theorem split_and_combine_deterministic csv_files train_ratio seed
    (fs1 fs2 : gmap string DataFrame) :
  (∀ it, it ∈ csv_files → fs1 !! it.2 = fs2 !! it.2) →
  (∀ df, ∃ tr te,
      split_frame df train_ratio seed = Ok (tr, te) ∧
      ∀ i, (tr ++ te) !! i =
           sample_order seed (len df) !! i ≫= (rows (coerce_answer df) !!.)) ∧
  (∀ all_train all_test, ∃ raw,
      combine all_train all_test seed = Ok raw ∧
      (∀ i, train raw !! i =
            shuffle_order seed (length (concat all_train)) !! i
              ≫= (concat all_train !!.)) ∧
      (∀ i, test raw !! i =
            shuffle_order seed (length (concat all_test)) !! i
              ≫= (concat all_test !!.))) ∧
  (∀ it, it ∈ csv_files →
      load_single_csv it.2 train_ratio seed fs1 =
      load_single_csv it.2 train_ratio seed fs2) ∧
  load_all_csv_files csv_files train_ratio seed fs1 =
  load_all_csv_files csv_files train_ratio seed fs2.
Proof.
  intros Hagree. split; [|split; [|split]].
  - intros df.
    destruct (split_frame_shape df train_ratio seed) as (k & _ & _ & _ & Hidx & Hsp).
    eexists _, _. split; [exact Hsp|].
    rewrite slice_to_from. intros i. rewrite Hidx.
    fold (len (coerce_answer df)). by rewrite len_coerce_answer.
  - intros all_train all_test.
    destruct (shuffle_shape (concat all_train) seed) as (tr & Htr & _ & _ & Hitr).
    destruct (shuffle_shape (concat all_test) seed) as (te & Hte & _ & _ & Hite).
    exists {| train := tr; test := te |}. split; [|done].
    unfold combine, concatenate_datasets. by rewrite Htr, Hte.
  - intros it Hit. by apply load_single_csv_agree, Hagree.
  - unfold load_all_csv_files, sbind.
    rewrite (load_loop_agree _ _ _ _ _ fs1 fs2 Hagree).
    destruct (load_loop csv_files train_ratio seed [] [] fs2) as [ev [e|acc]]; [done|].
    by destruct acc.1.
Qed.

End Determinism.

Lemma split_and_combine_deterministic_witness :
  (∀ it, it ∈ StandIn.files →
     StandIn.disk !! it.2 = (<[ "other.csv" := StandIn.sleep ]> StandIn.disk) !! it.2) ∧
  @load_all_csv_files StandIn.libs StandIn.files (8 # 10)%Q 42 StandIn.disk =
  @load_all_csv_files StandIn.libs StandIn.files (8 # 10)%Q 42
    (<[ "other.csv" := StandIn.sleep ]> StandIn.disk).
Proof.
  assert (∀ it, it ∈ StandIn.files →
     StandIn.disk !! it.2 = (<[ "other.csv" := StandIn.sleep ]> StandIn.disk) !! it.2)
    as Hagree.
  { intros it Hit. unfold StandIn.files in Hit.
    repeat (apply elem_of_cons in Hit as [->|Hit]; [reflexivity|]).
    by apply elem_of_nil in Hit. }
  split; [exact Hagree|].
  apply (@split_and_combine_deterministic StandIn.libs StandIn.files (8 # 10)%Q 42
           StandIn.disk (<[ "other.csv" := StandIn.sleep ]> StandIn.disk) Hagree).
Defined.

(* ===================================================================== *)
(** ** The split *)
(* ===================================================================== *)

Section Split.
Context `{Libraries}.

(** With a ratio strictly between 0 and 1 the slice bound is the floor of
    the product, it falls inside the frame, and the two slices are a prefix
    and the matching suffix of the selection. *)
Lemma split_frame_cut df train_ratio seed :
  (0 < train_ratio)%Q → (train_ratio < 1)%Q →
  let S := rows (coerce_answer df) in
  let cut := Z.to_nat (Qfloor (inject_Z (Z.of_nat (length S)) * train_ratio)%Q) in
  ∃ shuffled,
    take_rows (sample_order seed (length S)) S = Ok shuffled ∧
    shuffled ≡ₚ S ∧ length shuffled = length S ∧ cut ≤ length S ∧
    split_frame df train_ratio seed = Ok (take cut shuffled, drop cut shuffled).
Proof.
  intros Hpos Hlt S cut.
  destruct (split_frame_shape df train_ratio seed)
    as (k & Htake & Hperm & Hlen & _ & Hsp).
  fold S in Htake, Hperm, Hlen.
  destruct (int_of_floor (length S) train_ratio Hpos Hlt) as (Hint & Hge & Hle).
  assert (split_idx (coerce_answer df) train_ratio =
          Qfloor (inject_Z (Z.of_nat (length S)) * train_ratio)%Q) as Hidx
    by (unfold split_idx, len; exact Hint).
  rewrite Hidx in Hsp. unfold slice_to, slice_from in Hsp.
  rewrite slice_pos_nonneg in Hsp by done. fold cut in Hsp.
  exists k. repeat split; try done. unfold cut. lia.
Qed.


End Split.


(* ===================================================================== *)
(** ** The combination *)
(* ===================================================================== *)

Section Combine.
Context `{Libraries}.

Lemma split_sizes df train_ratio seed (n : nat) :
  (0 < train_ratio)%Q → (train_ratio < 1)%Q → len df = n →
  ∃ tr te, split_frame df train_ratio seed = Ok (tr, te) ∧
           length tr = Z.to_nat (Qfloor (inject_Z (Z.of_nat n) * train_ratio)%Q) ∧
           length te = n - Z.to_nat (Qfloor (inject_Z (Z.of_nat n) * train_ratio)%Q).
Proof.
  intros Hpos Hlt Hn.
  destruct (split_frame_cut df train_ratio seed Hpos Hlt)
    as (k & _ & _ & Hlen & Hcut & Hsp).
  fold (len (coerce_answer df)) in Hlen, Hcut, Hsp.
  rewrite len_coerce_answer, Hn in Hlen, Hcut, Hsp.
  eexists _, _. split; [exact Hsp|].
  rewrite length_take, length_drop, Hlen. lia.
Qed.

(** C4, as the code has it. The combination never raises. Each half is
    the concatenation of the per-source halves, in source order,
    reordered by the shuffle of the dataset library at the same seed, one
    call for [train] and one for [test]; that shuffle is not the sampler
    the splitter calls. It keeps every row exactly once, so the size of
    each half is the sum of the sizes of the per-source halves. The loader
    feeds it the halves of the files that exist, in the order of
    [csv_files]. Two sources of 10 and of 4 rows at ratio 0.8 split 8/2
    and 3/1 and combine into 11 and 3 rows. *)
Theorem combine_concatenates_and_shuffles seed :
  (∀ all_train all_test, ∃ raw,
      combine all_train all_test seed = Ok raw ∧
      shuffle (concat all_train) seed = Ok (train raw) ∧
      shuffle (concat all_test) seed = Ok (test raw) ∧
      train raw ≡ₚ concat all_train ∧ test raw ≡ₚ concat all_test ∧
      length (train raw) = sum_list (length <$> all_train) ∧
      length (test raw) = sum_list (length <$> all_test)) ∧
  (∀ csv_files train_ratio fs, ∃ events splits,
      Forall2 (λ it sp, split_frame it.2 train_ratio seed = Ok sp)
        (present csv_files fs) splits ∧
      (splits ≠ [] → ∃ raw,
          load_all_csv_files csv_files train_ratio seed fs = (events, Ok (Some raw)) ∧
          combine splits.*1 splits.*2 seed = Ok raw)) ∧
  (∀ dfA dfB, len dfA = 10 → len dfB = 4 →
     ∃ trA teA trB teB raw,
       split_frame dfA (8 # 10)%Q seed = Ok (trA, teA) ∧
       length trA = 8 ∧ length teA = 2 ∧
       split_frame dfB (8 # 10)%Q seed = Ok (trB, teB) ∧
       length trB = 3 ∧ length teB = 1 ∧
       combine [trA; trB] [teA; teB] seed = Ok raw ∧
       length (train raw) = 11 ∧ length (test raw) = 3).
Proof.
  assert (∀ all_train all_test, ∃ raw,
      combine all_train all_test seed = Ok raw ∧
      shuffle (concat all_train) seed = Ok (train raw) ∧
      shuffle (concat all_test) seed = Ok (test raw) ∧
      train raw ≡ₚ concat all_train ∧ test raw ≡ₚ concat all_test ∧
      length (train raw) = sum_list (length <$> all_train) ∧
      length (test raw) = sum_list (length <$> all_test)) as Hcombine.
  { intros all_train all_test.
    destruct (combine_shape all_train all_test seed)
      as (tr & te & Hc & Htr & Hte & Hptr & Hpte).
    exists {| train := tr; test := te |}. cbn [train test].
    rewrite <-!length_concat_sum.
    pose proof (Permutation_length Hptr). pose proof (Permutation_length Hpte).
    done. }
  split; [exact Hcombine|]. split.
  - intros csv_files train_ratio fs.
    destruct (load_all_csv_files_run csv_files train_ratio seed fs)
      as (ev & splits & Hall & _ & _ & _ & Hcase).
    exists ev, splits. split; [done|]. intros Hne.
    destruct splits as [|sp splits]; [done|].
    destruct Hcase as (raw & Hc & Hrun). eauto.
  - intros dfA dfB HA HB.
    destruct (split_sizes dfA (8 # 10)%Q seed 10) as (trA & teA & HsA & HtrA & HteA);
      [reflexivity..|done|].
    destruct (split_sizes dfB (8 # 10)%Q seed 4) as (trB & teB & HsB & HtrB & HteB);
      [reflexivity..|done|].
    change (length trA = 8) in HtrA. change (length teA = 2) in HteA.
    change (length trB = 3) in HtrB. change (length teB = 1) in HteB.
    destruct (Hcombine [trA; trB] [teA; teB])
      as (raw & Hc & _ & _ & _ & _ & Hltr & Hlte).
    exists trA, teA, trB, teB, raw. cbn in Hltr, Hlte.
    repeat split; try done; lia.
Qed.

End Combine.

(** C4 as stated does not follow from the code: the combiner calls the
    shuffle of the dataset library, the splitter the sampler of the
    data-frame library, and two libraries whose orders differ give a
    combination that is not the one the splitter's primitive would give. *)
Lemma combine_not_as_specified :
  ¬ (∀ (L : Libraries) all_train all_test seed,
       @combine L all_train all_test seed =
       @combine_as_specified L all_train all_test seed).
Proof.
  intros Hsame.
  specialize (Hsame StandIn.libs [rows StandIn.stress] [] 42%Z).
  apply (f_equal (λ r : result DatasetDict,
                    match r with
                    | inr raw => (λ x : row, x !! "problem") <$> train raw
                    | inl _ => []
                    end)) in Hsame.
  vm_compute in Hsame. discriminate Hsame.
Qed.

Lemma combine_concatenates_and_shuffles_witness :
  len StandIn.sleep = 10 ∧ len StandIn.stress = 4 ∧
  ∃ trA teA trB teB raw,
    @split_frame StandIn.libs StandIn.sleep (8 # 10)%Q 42 = Ok (trA, teA) ∧
    @split_frame StandIn.libs StandIn.stress (8 # 10)%Q 42 = Ok (trB, teB) ∧
    @combine StandIn.libs [trA; trB] [teA; teB] 42 = Ok raw ∧
    length (train raw) = 11 ∧ length (test raw) = 3.
Proof.
  split; [reflexivity|]. split; [reflexivity|].
  destruct (@combine_concatenates_and_shuffles StandIn.libs 42) as (_ & _ & Hex).
  destruct (Hex StandIn.sleep StandIn.stress eq_refl eq_refl)
    as (trA & teA & trB & teB & raw & HA & _ & _ & HB & _ & _ & Hc & Htr & Hte).
  exists trA, teA, trB, teB, raw. done.
Defined.

(* ===================================================================== *)
(** ** Answers are text *)
(* ===================================================================== *)

Section Answers.
Context `{Libraries}.

Lemma astype_answer_is_text (r : row) : answer_is_text (alter astype_str "answer" r).
Proof.
  unfold answer_is_text. rewrite lookup_alter_eq.
  by destruct (r !! "answer").
Qed.

Lemma coerce_answer_text df :
  wf_frame df → Forall answer_is_text (rows (coerce_answer df)).
Proof.
  intros Hwf. unfold coerce_answer. case_decide as Hcol.
  - cbn. apply Forall_fmap, Forall_forall. intros r _. apply astype_answer_is_text.
  - eapply Forall_impl; [exact Hwf|]. intros r Hr. unfold answer_is_text.
    destruct (r !! "answer") as [v|] eqn:Hv; [|done].
    exfalso. apply Hcol, Hr. by eexists.
Qed.

Lemma split_answer_text df train_ratio seed tr te :
  wf_frame df → split_frame df train_ratio seed = Ok (tr, te) →
  Forall answer_is_text tr ∧ Forall answer_is_text te.
Proof.
  intros Hwf Hsp.
  destruct (split_frame_shape df train_ratio seed) as (k & _ & Hperm & _ & _ & Hsp').
  rewrite Hsp' in Hsp. injection Hsp as <- <-.
  assert (Forall answer_is_text k) as Hk
    by (rewrite Hperm; by apply coerce_answer_text).
  split; [by apply Forall_take|by apply Forall_drop].
Qed.

Lemma combine_answer_text all_train all_test seed raw :
  combine all_train all_test seed = Ok raw →
  Forall (Forall answer_is_text) all_train → Forall (Forall answer_is_text) all_test →
  Forall answer_is_text (train raw) ∧ Forall answer_is_text (test raw).
Proof.
  intros Hc Htr Hte.
  destruct (combine_shape all_train all_test seed) as (tr & te & Hc' & _ & _ & Hptr & Hpte).
  rewrite Hc' in Hc. injection Hc as <-. cbn.
  rewrite Hptr, Hpte. split; by apply Forall_concat.
Qed.

Lemma templated_answer_text sys (ds out : Dataset) :
  Forall2 (templated sys) ds out → Forall answer_is_text ds → Forall answer_is_text out.
Proof.
  induction 1 as [|r r' ds out Hr _ IH]; intros Hds; [constructor|].
  apply Forall_cons in Hds as [Hr0 Hds]. constructor; [|by apply IH].
  unfold answer_is_text in *. by rewrite (templated_answer _ _ _ Hr).
Qed.

(** The corpus the loader returns has text answers when the frames on
    disk are well formed. *)
Lemma load_all_answer_text csv_files train_ratio seed fs events raw :
  (∀ p df, fs !! p = Some df → wf_frame df) →
  load_all_csv_files csv_files train_ratio seed fs = (events, Ok (Some raw)) →
  Forall answer_is_text (train raw) ∧ Forall answer_is_text (test raw).
Proof.
  intros Hwf Hrun.
  destruct (load_all_csv_files_run csv_files train_ratio seed fs)
    as (ev & splits & Hall & _ & _ & _ & Hcase).
  assert (Forall (λ it : string * string * DataFrame, wf_frame it.2)
            (present csv_files fs)) as Hpresent.
  { apply Forall_forall. intros [it df] Hin. unfold present in Hin.
    apply list_elem_of_omap in Hin as (it' & _ & Hit').
    destruct (fs !! it'.2) as [df'|] eqn:Hdf; [|done].
    injection Hit' as <- <-. by eapply Hwf. }
  assert (Forall (λ sp : Dataset * Dataset,
                    Forall answer_is_text sp.1 ∧ Forall answer_is_text sp.2) splits)
    as Hsplits.
  { clear Hcase. induction Hall as [|it [tr te] its sps Hsp _ IH]; [constructor|].
    apply Forall_cons in Hpresent as [Hit Hits].
    constructor; [|by apply IH]. by eapply split_answer_text. }
  destruct splits as [|sp splits].
  { destruct Hcase as [Hnone _]. rewrite Hnone in Hrun. done. }
  destruct Hcase as (raw' & Hc & Hsome). rewrite Hsome in Hrun.
  injection Hrun as _ <-.
  eapply combine_answer_text; [exact Hc|..].
  - apply Forall_fmap. eapply Forall_impl; [exact Hsplits|]. by intros ? [? _].
  - apply Forall_fmap. eapply Forall_impl; [exact Hsplits|]. by intros ? [_ ?].
Qed.

(** Whatever a run of the prompts loop saves is the corpus templated for
    one of the prompts, also when a later prompt raises. *)
Lemma prompts_loop_saved names raw output_dir results fs s :
  s ∈ saves (prompts_loop names raw output_dir results fs).1 →
  ∃ name, name ∈ names ∧ saved_for raw output_dir name s.
Proof.
  revert results. induction names as [|name names IH]; intros results.
  { cbn. intros Hs. by apply elem_of_nil in Hs. }
  cbn [prompts_loop]. rewrite sbind_emit.
  destruct (create_dataset_for_prompt_run raw name output_dir fs)
    as [(sys & processed & Hsys & Hgen & Hrun)|(e & Hrun & _)].
  - rewrite (sbind_Ok _ _ fs _ _ Hrun). rewrite !sbind_emit, !after_after.
    unfold after. cbn [fst]. rewrite saves_app.
    change (saves ((([Processing name] ++
              [SaveToDisk (save_path_of output_dir name) processed]) ++
              [SavedTo (processed, save_path_of output_dir name).2]) ++
              [Sizes (length (train (processed, save_path_of output_dir name).1))
                 (length (test (processed, save_path_of output_dir name).1))]))
      with [(save_path_of output_dir name, processed)].
    intros Hs. apply elem_of_app in Hs as [Hs|Hs].
    + apply list_elem_of_singleton in Hs as ->. exists name. split; [left|].
      split; [done|]. exists sys. by split.
    + apply IH in Hs as (n & Hn & Hsaved). exists n. split; [by right|done].
  - rewrite (sbind_Raise _ _ fs _ _ Hrun). unfold after. cbn.
    intros Hs. by apply elem_of_nil in Hs.
Qed.

Lemma create_datasets_for_prompts_saved names csv_files output_dir train_ratio seed
    fs s :
  s ∈ saves (create_datasets_for_prompts names csv_files output_dir train_ratio seed fs).1 →
  ∃ events raw name,
    load_all_csv_files csv_files train_ratio seed fs = (events, Ok (Some raw)) ∧
    name ∈ names ∧ saved_for raw output_dir name s.
Proof.
  unfold create_datasets_for_prompts.
  rewrite sbind_emit, header_run.
  destruct (load_all_csv_files csv_files train_ratio seed fs)
    as [ev [e|[raw|]]] eqn:Hrun.
  - rewrite (sbind_Raise _ _ fs _ _ Hrun). unfold after. cbn.
    destruct (load_all_csv_files_run csv_files train_ratio seed fs)
      as (ev' & splits & _ & _ & Hsaves & _ & Hcase).
    destruct splits; [destruct Hcase as [Hc _]|destruct Hcase as (? & _ & Hc)];
      rewrite Hc in Hrun; done.
  - rewrite (sbind_Ok _ _ fs _ _ Hrun).
    rewrite sbind_emit, header_run, !after_after.
    destruct (load_all_csv_files_run csv_files train_ratio seed fs)
      as (ev' & splits & _ & _ & Hsaves & _ & Hcase).
    assert (saves ev = []) as Hev.
    { destruct splits; [destruct Hcase as [Hc _]|destruct Hcase as (? & _ & Hc)];
        rewrite Hc in Hrun; by injection Hrun as <- _. }
    pose proof (prompts_loop_saved names raw output_dir ∅ fs s) as Hloop.
    unfold after. cbn [fst]. rewrite sbind_sret_events, !saves_app, Hev.
    cbn.
    intros Hs. destruct (Hloop Hs) as (name & Hname & Hsaved).
    exists ev, raw, name. done.
  - rewrite (sbind_Ok _ _ fs _ _ Hrun). unfold after, sret. cbn [fst].
    rewrite !saves_app.
    destruct (load_all_csv_files_run csv_files train_ratio seed fs)
      as (ev' & splits & _ & _ & Hsaves & _ & Hcase).
    assert (saves ev = []) as Hev.
    { destruct splits; [destruct Hcase as [Hc _]|destruct Hcase as (? & _ & Hc)];
        rewrite Hc in Hrun; [by injection Hrun as <-|done]. }
    rewrite Hev. cbn. intros Hs. by apply elem_of_nil in Hs.
Qed.

End Answers.

Lemma process_example_Ok sys_prompt add_instruction example out :
  process_example sys_prompt add_instruction example = Ok out →
  ∃ p a text,
    example !! "problem" = Some p ∧ example !! "answer" = Some a ∧
    (if add_instruction
     then ∃ s instruction, p = VStr s ∧ instruction ∈ instructions ∧
                           text = s +:+ instruction
     else text = py_str p) ∧
    out = <[ "prompt" := VConversation (prompt_of sys_prompt (user_format text)) ]>
          (<[ "answer" := VStr (py_str a) ]>
           {[ "source" := get_default example "source" (VStr "healthcare") ]}).
Proof.
  unfold process_example, getitem.
  destruct (example !! "problem") as [p|]; [|done]. cbn [rbind].
  destruct add_instruction.
  - destruct (get_default example "source" (VStr "PMData")) as [src| | | |]; try done.
    cbn [lower_of rbind].
    destruct (str_in "fatigue" (lower src));
      [|cbn [lower_of rbind]; destruct (str_in "readiness" (lower src));
        [|cbn [lower_of rbind]; destruct (str_in "sleep_quality" (lower src));
          [|cbn [lower_of rbind]; destruct (str_in "stress" (lower src))]]];
      cbn [rbind]; (destruct p as [s| | | |]; try done);
      cbn [add_str rbind py_str];
      (destruct (example !! "answer") as [a|]; [|done]); cbn [rbind];
      intros [= <-]; eexists (VStr s), a, _;
      (split; [done|]); (split; [done|]); (split; [|done]);
      eexists s, _; (split; [done|]); (split; [|done]);
      unfold instructions; set_solver.
  - cbn [rbind]. destruct (example !! "answer") as [a|]; [|done]. cbn [rbind].
    intros [= <-]. exists p, a, (py_str p). done.
Qed.

Section AnswersText.
Context `{Libraries}.

(** C5. When the frames on disk are well formed (every row has the keys
    of the header), the answer of every record that leaves the loader is
    text, whatever the cell held in the CSV file: an integer, a float or
    text. Every dataset a run saves has text answers too; templating
    leaves the answer cell as it is, and the healthcare templater writes
    the [str] of the answer. Nothing after the loader reads an answer as a
    number. *)
Theorem answers_are_text names csv_files output_dir train_ratio seed fs :
  (∀ p df, fs !! p = Some df → wf_frame df) →
  (∀ p df, fs !! p = Some df →
     ∃ events tr te,
       load_single_csv p train_ratio seed fs = (events, Ok (tr, te)) ∧
       Forall answer_is_text tr ∧ Forall answer_is_text te) ∧
  (∀ s, s ∈ saves (create_datasets_for_prompts names csv_files output_dir
                     train_ratio seed fs).1 →
     Forall answer_is_text (train s.2) ∧ Forall answer_is_text (test s.2)) ∧
  (∀ sys (ds out : Dataset),
     make_generation_dataset ds sys = Ok out →
     (λ r : row, r !! "answer") <$> out = (λ r : row, r !! "answer") <$> ds) ∧
  (∀ sys add_instruction example out,
     process_example sys add_instruction example = Ok out →
     ∃ a, example !! "answer" = Some a ∧ out !! "answer" = Some (VStr (py_str a))).
Proof.
  intros Hwf. split; [|split; [|split]].
  - intros p df Hp.
    destruct (split_frame_total df train_ratio seed) as [[tr te] Hsp].
    exists [Loading p], tr, te. split.
    + unfold load_single_csv. rewrite sbind_emit.
      rewrite (sbind_Ok _ _ fs [] df) by (unfold read_csv; by rewrite Hp).
      unfold lift, after. cbn. by rewrite Hsp.
    + eapply split_answer_text; [by eapply Hwf|exact Hsp].
  - intros s Hs.
    apply create_datasets_for_prompts_saved in Hs
      as (ev & raw & name & Hrun & _ & _ & sys & _ & Hgen).
    apply make_generation_dataset_dict in Hgen as [Htr Hte].
    destruct (load_all_answer_text _ _ _ _ _ _ Hwf Hrun) as [Hrtr Hrte].
    split; by eapply templated_answer_text.
  - intros sys ds out Hgen.
    apply dataset_map_generation in Hgen.
    induction Hgen as [|r r' ds out Hr _ IH]; [done|].
    cbn. f_equal; [by eapply templated_answer|exact IH].
  - intros sys add_instruction example out Hout.
    apply process_example_Ok in Hout as (p & a & text & _ & Ha & _ & ->).
    exists a. split; [done|].
    rewrite lookup_insert_ne by done. by rewrite lookup_insert_eq.
Qed.

End AnswersText.

Lemma record_keys problem answer source k :
  is_Some (StandIn.record problem answer source !! k) ↔ k ∈ StandIn.header3.
Proof.
  unfold StandIn.record, StandIn.header3. rewrite <-elem_of_dom.
  rewrite !dom_insert_L, dom_singleton_L.
  rewrite !elem_of_union, !elem_of_singleton, !elem_of_cons, elem_of_nil. tauto.
Qed.

Lemma disk_wf p df : StandIn.disk !! p = Some df → wf_frame df.
Proof.
  unfold StandIn.disk. intros Hp.
  apply lookup_insert_Some in Hp as [[_ <-]|[_ Hp]];
    [|apply lookup_singleton_Some in Hp as [_ <-]]; unfold wf_frame.
  - apply Forall_fmap, Forall_forall. intros i _ k. apply record_keys.
  - repeat (apply Forall_cons; split; [intros k; apply record_keys|]).
    apply Forall_nil. done.
Qed.

Lemma answers_are_text_witness :
  (∀ p df, StandIn.disk !! p = Some df → wf_frame df) ∧
  ∀ s, s ∈ saves (@create_datasets_for_prompts StandIn.libs ALL_SYS_PROMPTS
                    StandIn.files "out" (8 # 10)%Q 42 StandIn.disk).1 →
       Forall answer_is_text (train s.2) ∧ Forall answer_is_text (test s.2).
Proof.
  split; [exact disk_wf|].
  apply (@answers_are_text StandIn.libs ALL_SYS_PROMPTS StandIn.files "out"
           (8 # 10)%Q 42 StandIn.disk disk_wf).
Defined.

(* ===================================================================== *)
(** ** The shape and the content of the prompt *)
(* ===================================================================== *)

Lemma rmapM_Raise_inv {A B} (f : A → result B) l e :
  rmapM f l = Raise e → ∃ x, x ∈ l ∧ f x = Raise e.
Proof.
  induction l as [|x l IH]; [done|]. cbn.
  destruct (f x) as [e'|y] eqn:Hx; cbn.
  - intros [= <-]. exists x. split; [left|done].
  - destruct (rmapM f l) as [e'|ys]; cbn; [|done].
    intros [= <-]. destruct IH as (z & Hz & Hfz); [done|].
    exists z. split; [by right|done].
Qed.

Lemma templated_two_turns sys_prompt r r' : templated sys_prompt r r' → two_turns sys_prompt r'.
Proof. intros (v & _ & ->). exists (py_str v). by rewrite lookup_insert_eq. Qed.

Lemma healthcare_two_turns sys_prompt add_instruction (ds out : Dataset) :
  make_healthcare_dataset ds sys_prompt add_instruction = Ok out →
  Forall (two_turns sys_prompt) out.
Proof.
  unfold make_healthcare_dataset, dataset_map. rewrite rmapM_Ok.
  induction 1 as [|r r' ds out Hr _ IH]; constructor; [|done].
  destruct (process_example sys_prompt add_instruction r) as [e|o] eqn:Ho; [done|].
  cbn in Hr. injection Hr as <-.
  apply process_example_Ok in Ho as (p & a & text & _ & _ & _ & ->).
  exists text. apply lookup_union_Some_l. by rewrite lookup_insert_eq.
Qed.

(** C6. Every row a templater returns carries a prompt of exactly two
    turns in the order system, user: the first has role [system] and the
    system text of the variant, the second has role [user] and the problem
    wrapped by [user_format]. This holds of a dataset, of both splits of a
    dataset dict, and of the healthcare templater. *)
Theorem prompt_has_two_turns sys_prompt :
  (∀ ds out : Dataset,
     make_generation_dataset ds sys_prompt = Ok out → Forall (two_turns sys_prompt) out) ∧
  (∀ dd out : DatasetDict,
     make_generation_dataset dd sys_prompt = Ok out →
     Forall (two_turns sys_prompt) (train out) ∧ Forall (two_turns sys_prompt) (test out)) ∧
  (∀ add_instruction (ds out : Dataset),
     make_healthcare_dataset ds sys_prompt add_instruction = Ok out →
     Forall (two_turns sys_prompt) out).
Proof.
  assert (∀ ds out : Dataset,
            Forall2 (templated sys_prompt) ds out → Forall (two_turns sys_prompt) out) as Ht.
  { intros ds out Hall. eapply Forall2_Forall_r; [exact Hall|].
    apply Forall_forall. intros r _ r'. apply templated_two_turns. }
  split; [|split].
  - intros ds out Hgen. apply dataset_map_generation in Hgen. by eapply Ht.
  - intros dd out Hgen. apply make_generation_dataset_dict in Hgen as [Htr Hte].
    split; by eapply Ht.
  - intros add_instruction ds out. apply healthcare_two_turns.
Qed.

Lemma prompt_has_two_turns_witness :
  ∃ out : Dataset,
    make_generation_dataset (rows StandIn.stress) "S" = Ok out ∧
    Forall (two_turns "S") out.
Proof.
  eexists. split; [reflexivity|].
  apply (proj1 (prompt_has_two_turns "S") (rows StandIn.stress) _ eq_refl).
Defined.




(* ===================================================================== *)
(** ** Failures *)
(* ===================================================================== *)

Section Failures.
Context `{Libraries}.

Lemma present_none csv_files (fs : gmap string DataFrame) :
  (∀ it, it ∈ csv_files → fs !! it.2 = None) → present csv_files fs = [].
Proof.
  intros Hnone. unfold present.
  induction csv_files as [|it items IH]; [done|]. cbn.
  rewrite (Hnone it) by left. cbn. apply IH. intros it' Hit'. apply Hnone. by right.
Qed.

(** C8. When none of the files of [csv_files] exists, the loader warns
    once per file, reports that no valid CSV file was found and returns
    [None]; both entry points then stop with [None] right after the
    loader: no prompt is processed and nothing is saved. *)
Theorem no_data_stops_the_run names sys_prompt_name csv_files output_dir
    train_ratio seed fs :
  (∀ it, it ∈ csv_files → fs !! it.2 = None) →
  let warnings := (WarnNotFound <$> csv_files.*2) ++ [ErrNoValidCsv] in
  load_all_csv_files csv_files train_ratio seed fs = (warnings, Ok None) ∧
  create_datasets_for_prompts names csv_files output_dir train_ratio seed fs =
    ([MakeDirs output_dir; Say (nl +:+ rule); Say "Step 1: Loading all CSV files";
      Say rule] ++ warnings, Ok None) ∧
  create_dataset_for_single_prompt csv_files output_dir sys_prompt_name
      train_ratio seed fs =
    ([MakeDirs output_dir; Say (nl +:+ rule);
      Say ("Creating dataset with '" +:+ sys_prompt_name +:+ "' prompt");
      Say rule; Say (nl +:+ "Loading CSV files...")] ++ warnings, Ok None) ∧
  processed_prompts
    (create_datasets_for_prompts names csv_files output_dir train_ratio seed fs).1 = [] ∧
  saves
    (create_datasets_for_prompts names csv_files output_dir train_ratio seed fs).1 = [] ∧
  processed_prompts
    (create_dataset_for_single_prompt csv_files output_dir sys_prompt_name
       train_ratio seed fs).1 = [] ∧
  saves
    (create_dataset_for_single_prompt csv_files output_dir sys_prompt_name
       train_ratio seed fs).1 = [].
Proof.
  intros Hnone warnings.
  assert (load_all_csv_files csv_files train_ratio seed fs = (warnings, Ok None)) as Hload.
  { destruct (load_all_csv_files_run csv_files train_ratio seed fs)
      as (ev & splits & Hall & _ & _ & _ & Hcase).
    rewrite (present_none _ _ Hnone) in Hall. apply Forall2_nil_inv_l in Hall as ->.
    destruct Hcase as [-> ->]. done. }
  assert (processed_prompts warnings = [] ∧ saves warnings = []) as [Hp Hs].
  { unfold warnings, processed_prompts, saves. rewrite !omap_app. cbn.
    rewrite !app_nil_r. clear. split; induction (csv_files.*2); done. }
  assert (create_datasets_for_prompts names csv_files output_dir train_ratio seed fs =
    ([MakeDirs output_dir; Say (nl +:+ rule); Say "Step 1: Loading all CSV files";
      Say rule] ++ warnings, Ok None)) as Hall.
  { unfold create_datasets_for_prompts.
    rewrite sbind_emit, header_run, (sbind_Ok _ _ fs _ _ Hload), !after_after.
    unfold after, sret. cbn [fst snd]. by rewrite app_nil_r. }
  assert (create_dataset_for_single_prompt csv_files output_dir sys_prompt_name
            train_ratio seed fs =
    ([MakeDirs output_dir; Say (nl +:+ rule);
      Say ("Creating dataset with '" +:+ sys_prompt_name +:+ "' prompt");
      Say rule; Say (nl +:+ "Loading CSV files...")] ++ warnings, Ok None)) as Hone.
  { unfold create_dataset_for_single_prompt.
    rewrite sbind_emit, header_run, sbind_emit, (sbind_Ok _ _ fs _ _ Hload), !after_after.
    unfold after, sret. cbn [fst snd]. by rewrite app_nil_r. }
  rewrite Hall, Hone. cbn [fst].
  rewrite !processed_prompts_app, !saves_app, Hp, Hs. done.
Qed.

Lemma generation_raises_on sys_prompt example (ds : Dataset) :
  problem_field example = None → example ∈ ds →
  make_generation_dataset ds sys_prompt = Raise (KeyError "problem").
Proof.
  intros Hnone Hin.
  assert (make_generation_conversation sys_prompt example = Raise (KeyError "problem"))
    as Hex.
  { destruct (make_generation_conversation sys_prompt example) as [e|o] eqn:Ho.
    - by apply make_generation_conversation_Raise in Ho as [-> _].
    - apply make_generation_conversation_Ok in Ho as (v & Hv & _). congruence. }
  unfold make_generation_dataset, dmap, Dataset_mappable, dataset_map.
  destruct (rmapM_elem_Raise
              (λ ex : row, out <~ make_generation_conversation sys_prompt ex ;;
                           Ok (out ∪ ex)) ds example (KeyError "problem") Hin)
    as [e He]; [by rewrite Hex|].
  rewrite He. f_equal.
  apply rmapM_Raise_inv in He as (x & _ & Hx).
  destruct (make_generation_conversation sys_prompt x) as [e'|o] eqn:Ho; [|done].
  cbn in Hx. injection Hx as <-.
  by apply make_generation_conversation_Raise in Ho as [-> _].
Qed.

(** C9. A record with neither a [question] nor a [problem] field makes
    the templater raise [KeyError('problem')]; so does the map over any
    dataset, or dataset dict, that holds such a record, which returns no
    row at all; and the script raises before it saves anything for that
    prompt. The healthcare templater raises on such a record too. *)
Theorem missing_problem_raises sys_prompt example :
  example !! "question" = None → example !! "problem" = None →
  make_generation_conversation sys_prompt example = Raise (KeyError "problem") ∧
  (∀ ds : Dataset, example ∈ ds →
     make_generation_dataset ds sys_prompt = Raise (KeyError "problem")) ∧
  (∀ dd : DatasetDict, example ∈ train dd ∨ example ∈ test dd →
     make_generation_dataset dd sys_prompt = Raise (KeyError "problem")) ∧
  (∀ raw name output_dir fs,
     get_sys_prompt name = Ok sys_prompt →
     example ∈ train raw ∨ example ∈ test raw →
     create_dataset_for_prompt raw name output_dir fs = ([], Raise (KeyError "problem"))) ∧
  (∀ add_instruction,
     process_example sys_prompt add_instruction example = Raise (KeyError "problem")) ∧
  (∀ add_instruction (ds : Dataset), example ∈ ds →
     ∃ e, make_healthcare_dataset ds sys_prompt add_instruction = Raise e).
Proof.
  intros Hq Hp.
  assert (problem_field example = None) as Hnone
    by (unfold problem_field; by rewrite Hq).
  assert (∀ dd : DatasetDict, example ∈ train dd ∨ example ∈ test dd →
     make_generation_dataset dd sys_prompt = Raise (KeyError "problem")) as Hdd.
  { intros dd Hin. unfold make_generation_dataset, dmap, DatasetDict_mappable.
    destruct (dataset_map _ (train dd)) as [e|tr] eqn:Htr.
    - destruct (make_generation_dataset (train dd) sys_prompt) as [e'|] eqn:He;
        unfold make_generation_dataset, dmap, Dataset_mappable in He;
        rewrite Htr in He; [|done]. injection He as ->. cbn. f_equal.
      apply rmapM_Raise_inv in Htr as (x & _ & Hx).
      destruct (make_generation_conversation sys_prompt x) as [e|o] eqn:Ho; [|done].
      cbn in Hx. injection Hx as <-.
      by apply make_generation_conversation_Raise in Ho as [-> _].
    - cbn. destruct Hin as [Hin|Hin].
      + pose proof (generation_raises_on sys_prompt example (train dd) Hnone Hin) as He.
        unfold make_generation_dataset, dmap, Dataset_mappable in He. congruence.
      + pose proof (generation_raises_on sys_prompt example (test dd) Hnone Hin) as He.
        unfold make_generation_dataset, dmap, Dataset_mappable in He.
        by rewrite He. }
  assert (∀ add_instruction,
     process_example sys_prompt add_instruction example = Raise (KeyError "problem")) as Hpe.
  { intros add_instruction. unfold process_example, getitem. by rewrite Hp. }
  split; [|split; [|split; [|split; [|split]]]].
  - unfold make_generation_conversation, getitem.
    rewrite decide_False by (rewrite Hq; by intros [? ?]). by rewrite Hp.
  - intros ds Hin. by eapply generation_raises_on.
  - exact Hdd.
  - intros raw name output_dir fs Hsys Hin.
    unfold create_dataset_for_prompt, process_dataset. cbn [sys_prompt_name task_spec].
    rewrite Hsys. cbn [rbind]. rewrite decide_True by done.
    apply sbind_Raise. unfold lift. by rewrite (Hdd raw Hin).
  - exact Hpe.
  - intros add_instruction ds Hin.
    unfold make_healthcare_dataset, dataset_map.
    eapply rmapM_elem_Raise; [exact Hin|]. by rewrite Hpe.
Qed.


End Failures.

Lemma no_data_stops_the_run_witness :
  (∀ it, it ∈ StandIn.files → (∅ : gmap string DataFrame) !! it.2 = None) ∧
  @create_datasets_for_prompts StandIn.libs ALL_SYS_PROMPTS StandIn.files "out"
    (8 # 10)%Q 42 ∅ =
    ([MakeDirs "out"; Say (nl +:+ rule); Say "Step 1: Loading all CSV files"; Say rule;
      WarnNotFound "sleep.csv"; WarnNotFound "nowhere.csv"; WarnNotFound "stress.csv";
      ErrNoValidCsv], Ok None).
Proof.
  assert (∀ it, it ∈ StandIn.files → (∅ : gmap string DataFrame) !! it.2 = None)
    as Hnone by (intros it _; apply lookup_empty).
  split; [exact Hnone|].
  apply (@no_data_stops_the_run StandIn.libs ALL_SYS_PROMPTS "tabc" StandIn.files "out"
           (8 # 10)%Q 42 ∅ Hnone).
Defined.

Lemma missing_problem_raises_witness :
  ({[ "answer" := VInt 1 ]} : row) !! "question" = None ∧
  ({[ "answer" := VInt 1 ]} : row) !! "problem" = None ∧
  @make_generation_dataset Dataset _
    [StandIn.record "p" (VInt 0) "sleep"; {[ "answer" := VInt 1 ]}] "S"
    = Raise (KeyError "problem").
Proof.
  assert (({[ "answer" := VInt 1 ]} : row) !! "question" = None) as Hq by reflexivity.
  assert (({[ "answer" := VInt 1 ]} : row) !! "problem" = None) as Hp by reflexivity.
  split; [exact Hq|]. split; [exact Hp|].
  apply (@missing_problem_raises StandIn.libs "S" {[ "answer" := VInt 1 ]} Hq Hp).
  right. left.
Defined.


(* ===================================================================== *)
(** ** The split, for ratios the script does not check *)
(* ===================================================================== *)


Section SplitEdges.
Context `{Libraries}.





End SplitEdges.




(* ===================================================================== *)
(** ** The loader, end to end *)
(* ===================================================================== *)

Lemma warned_app ev1 ev2 : warned (ev1 ++ ev2) = warned ev1 ++ warned ev2.
Proof. apply omap_app. Qed.

Lemma concat_halves (splits : list (Dataset * Dataset)) :
  concat splits.*1 ++ concat splits.*2 ≡ₚ concat ((λ sp, sp.1 ++ sp.2) <$> splits).
Proof.
  induction splits as [|[tr te] splits IH]; [done|]. cbn.
  rewrite <-IH, <-!app_assoc. f_equiv.
  rewrite !app_assoc. f_equiv. apply Permutation_app_comm.
Qed.

Lemma present_cons it items (fs : gmap string DataFrame) :
  present (it :: items) fs =
  match fs !! it.2 with
  | Some df => (it, df) :: present items fs
  | None => present items fs
  end.
Proof. unfold present. cbn. by destruct (fs !! it.2). Qed.

Section Loader.
Context `{Libraries}.

Lemma load_loop_warned items train_ratio seed all_train all_test fs :
  warned (load_loop items train_ratio seed all_train all_test fs).1 = (missing items fs).*2.
Proof.
  revert all_train all_test.
  induction items as [|[task p] items IH]; intros all_train all_test; [done|].
  unfold missing. cbn [filter list_filter].
  destruct (fs !! p) as [df|] eqn:Hp.
  - destruct (split_frame_total df train_ratio seed) as [sp Hsp].
    rewrite (load_loop_present _ _ _ _ _ _ _ _ df sp) by done.
    unfold after. cbn [fst]. rewrite warned_app, IH.
    rewrite decide_False by (cbn; by rewrite Hp). done.
  - rewrite load_loop_missing by done.
    unfold after. cbn [fst]. rewrite warned_app, IH.
    rewrite decide_True by done. done.
Qed.

Lemma split_frame_fun (its : list (string * string * DataFrame)) train_ratio seed
    (splits splits' : list (Dataset * Dataset)) :
  Forall2 (λ it sp, split_frame it.2 train_ratio seed = Ok sp) its splits →
  Forall2 (λ it sp, split_frame it.2 train_ratio seed = Ok sp) its splits' →
  splits = splits'.
Proof.
  intros Hall. revert splits'.
  induction Hall as [|it sp its splits Hsp _ IH]; intros splits' Hall';
    inversion Hall' as [|? sp' ? splits'' Hsp' Hrest]; subst; [done|].
  f_equal; [congruence|by apply IH].
Qed.

(** The result of the loader is fixed by the halves of the files that
    exist. *)
Lemma load_all_result csv_files train_ratio seed fs splits :
  Forall2 (λ it sp, split_frame it.2 train_ratio seed = Ok sp)
    (present csv_files fs) splits →
  (load_all_csv_files csv_files train_ratio seed fs).2 =
  match splits with
  | [] => Ok None
  | _ => raw <~ combine splits.*1 splits.*2 seed ;; Ok (Some raw)
  end.
Proof.
  intros Hall.
  destruct (load_all_csv_files_run csv_files train_ratio seed fs)
    as (ev & splits' & Hall' & _ & _ & _ & Hcase).
  rewrite (split_frame_fun _ _ _ _ _ Hall Hall').
  destruct splits' as [|sp splits'].
  - destruct Hcase as [-> _]. done.
  - destruct Hcase as (raw & -> & ->). done.
Qed.


(** X6. No record is lost or repeated between the files and the corpus:
    [train] and [test] of the corpus the loader returns hold, together,
    exactly the rows of the files that exist, answer coerced, each once. *)
Theorem loader_keeps_every_row csv_files train_ratio seed fs events raw :
  load_all_csv_files csv_files train_ratio seed fs = (events, Ok (Some raw)) →
  train raw ++ test raw ≡ₚ
    concat ((λ it, rows (coerce_answer it.2)) <$> present csv_files fs) ∧
  length (train raw) + length (test raw) =
    sum_list ((λ it, len it.2) <$> present csv_files fs).
Proof.
  intros Hrun.
  destruct (load_all_csv_files_run csv_files train_ratio seed fs)
    as (ev & splits & Hall & _ & _ & _ & Hcase).
  destruct splits as [|sp0 splits0].
  { destruct Hcase as [Hnone _]. rewrite Hnone in Hrun. done. }
  destruct Hcase as (raw' & Hc & Hsome). rewrite Hsome in Hrun.
  injection Hrun as _ <-.
  destruct (combine_shape (sp0 :: splits0).*1 (sp0 :: splits0).*2 seed)
    as (tr & te & Hc' & _ & _ & Hptr & Hpte).
  rewrite Hc' in Hc. injection Hc as <-. cbn [train test].
  assert (concat ((λ sp : Dataset * Dataset, sp.1 ++ sp.2) <$> (sp0 :: splits0)) ≡ₚ
          concat ((λ it : string * string * DataFrame, rows (coerce_answer it.2))
                    <$> present csv_files fs)) as Hrows.
  { clear Hptr Hpte Hc' Hsome. induction Hall as [|it sp its sps Hsp _ IH]; [done|].
    cbn. rewrite IH. f_equiv.
    destruct (split_frame_shape it.2 train_ratio seed) as (k & _ & Hperm & _ & _ & Hsp').
    rewrite Hsp' in Hsp. injection Hsp as <-. cbn. by rewrite slice_to_from. }
  assert (tr ++ te ≡ₚ concat ((λ it : string * string * DataFrame,
                                 rows (coerce_answer it.2)) <$> present csv_files fs))
    as Hperm by (rewrite Hptr, Hpte, concat_halves; exact Hrows).
  split; [exact Hperm|].
  rewrite <-length_app, (Permutation_length Hperm), length_concat_sum.
  rewrite <-list_fmap_compose. f_equal. apply list_fmap_ext.
  intros i it _. cbn. fold (len (coerce_answer it.2)). apply len_coerce_answer.
Qed.

(** X7. A file that does not exist costs one warning and nothing else: the
    loader warns once per missing entry, in order, and returns what it
    returns on [csv_files] without the missing entries. *)
Theorem loader_skips_missing_files csv_files train_ratio seed fs :
  warned (load_all_csv_files csv_files train_ratio seed fs).1 = (missing csv_files fs).*2 ∧
  (load_all_csv_files csv_files train_ratio seed fs).2 =
  (load_all_csv_files (filter (λ item, is_Some (fs !! item.2)) csv_files)
     train_ratio seed fs).2.
Proof.
  split.
  - unfold load_all_csv_files.
    pose proof (load_loop_warned csv_files train_ratio seed [] [] fs) as Hw.
    destruct (load_loop_run csv_files train_ratio seed [] [] fs)
      as (ev & splits & Hrun & _). rewrite Hrun in Hw. cbn [fst] in Hw.
    rewrite (sbind_Ok _ _ fs _ _ Hrun). unfold after. cbn [fst snd app].
    rewrite warned_app, Hw.
    destruct splits.*1; cbn.
    + by rewrite app_nil_r.
    + destruct (combine _ _ seed); cbn; by rewrite app_nil_r.
  - assert (present (filter (λ item, is_Some (fs !! item.2)) csv_files) fs =
            present csv_files fs) as Hpresent.
    { induction csv_files as [|it items IH]; [done|].
      rewrite filter_cons, (present_cons it items).
      destruct (fs !! it.2) as [df|] eqn:Hit.
      - rewrite decide_True by eauto. by rewrite present_cons, Hit, IH.
      - rewrite decide_False by (intros [? ?]; done). exact IH. }
    destruct (load_all_csv_files_run csv_files train_ratio seed fs)
      as (ev & splits & Hall & _).
    rewrite (load_all_result _ _ _ _ _ Hall).
    rewrite <-Hpresent in Hall. by rewrite (load_all_result _ _ _ _ _ Hall).
Qed.

End Loader.

Lemma loader_keeps_every_row_witness :
  ∃ events raw,
    @load_all_csv_files StandIn.libs StandIn.files (8 # 10)%Q 42 StandIn.disk
      = (events, Ok (Some raw)) ∧
    length (train raw) + length (test raw) = 14.
Proof.
  eexists _, _. split; [reflexivity|].
  apply (@loader_keeps_every_row StandIn.libs StandIn.files (8 # 10)%Q 42 StandIn.disk
           _ _ eq_refl).
Defined.

(* ===================================================================== *)
(** ** The runs of the two entry points *)
(* ===================================================================== *)

Lemma rmapM_all_Ok {A B} (f : A → result B) l :
  Forall (λ x, ∃ y, f x = Ok y) l → ∃ k, rmapM f l = Ok k.
Proof.
  induction 1 as [|x l [y Hy] _ [k Hk]]; [by eexists|].
  cbn. rewrite Hy, Hk. by eexists.
Qed.

Lemma string_app_inj_r (a x y : string) : a +:+ x = a +:+ y → x = y.
Proof. induction a as [|c a IH]; cbn; [done|]. intros [= Heq]. by apply IH. Qed.

Lemma save_path_of_eq output_dir name :
  save_path_of output_dir name =
  if String.eqb output_dir EmptyString || ends_with_sep output_dir
  then output_dir +:+ "lifesnaps_" +:+ name
  else output_dir +:+ "/" +:+ "lifesnaps_" +:+ name.
Proof. done. Qed.

Section EntryPoints.
Context `{Libraries}.

(** The events of a run of [create_datasets_for_prompts], stage by stage. *)
Lemma create_datasets_for_prompts_shape names csv_files output_dir train_ratio seed fs :
  let pre := [MakeDirs output_dir; Say (nl +:+ rule);
              Say "Step 1: Loading all CSV files"; Say rule] in
  let load := load_all_csv_files csv_files train_ratio seed fs in
  create_datasets_for_prompts names csv_files output_dir train_ratio seed fs =
  match load.2 with
  | inl e => (pre ++ load.1, Raise e)
  | inr None => (pre ++ load.1, Ok None)
  | inr (Some raw) =>
      let loop := prompts_loop names raw output_dir ∅ fs in
      (pre ++ load.1 ++
       [TotalSamples (length (train raw)) (length (test raw)); Say (nl +:+ rule);
        Say "Step 2: Creating datasets for each system prompt"; Say rule] ++ loop.1,
       match loop.2 with
       | inl e => Raise e
       | inr results => Ok (Some results)
       end)
  end.
Proof.
  intros pre load. unfold create_datasets_for_prompts.
  rewrite sbind_emit, header_run, after_after.
  destruct (load_all_csv_files csv_files train_ratio seed fs)
    as [ev [e|[raw|]]] eqn:Hrun; subst load; cbn [fst snd].
  - rewrite (sbind_Raise _ _ fs _ _ Hrun). done.
  - rewrite (sbind_Ok _ _ fs _ _ Hrun).
    rewrite sbind_emit, header_run, !after_after.
    destruct (prompts_loop names raw output_dir ∅ fs) as [ev' [e|res]] eqn:Hloop.
    + rewrite (sbind_Raise _ _ fs _ _ Hloop). unfold after. cbn [fst snd].
      by rewrite <-!app_assoc.
    + rewrite (sbind_Ok _ _ fs _ _ Hloop). unfold after, sret. cbn [fst snd].
      by rewrite <-!app_assoc, app_nil_r.
  - rewrite (sbind_Ok _ _ fs _ _ Hrun). unfold after, sret. cbn [fst snd].
    by rewrite app_nil_r.
Qed.

Lemma load_all_events_quiet csv_files train_ratio seed fs :
  saves (load_all_csv_files csv_files train_ratio seed fs).1 = [] ∧
  processed_prompts (load_all_csv_files csv_files train_ratio seed fs).1 = [].
Proof.
  destruct (load_all_csv_files_run csv_files train_ratio seed fs)
    as (ev & splits & _ & _ & Hs & Hp & Hcase).
  destruct splits; [destruct Hcase as [-> _]|destruct Hcase as (? & _ & ->)]; done.
Qed.

Lemma prompts_loop_warned names raw output_dir results fs :
  warned (prompts_loop names raw output_dir results fs).1 = [].
Proof.
  revert results. induction names as [|name names IH]; intros results; [done|].
  cbn [prompts_loop]. rewrite sbind_emit.
  destruct (create_dataset_for_prompt_run raw name output_dir fs)
    as [(sys & processed & _ & _ & Hrun)|(e & Hrun & _)].
  - rewrite (sbind_Ok _ _ fs _ _ Hrun). rewrite !sbind_emit, !after_after.
    unfold after. cbn [fst]. rewrite warned_app. cbn. apply IH.
  - by rewrite (sbind_Raise _ _ fs _ _ Hrun).
Qed.

(** X8. Loading is over before templating starts: the events of any run,
    whether it succeeds, stops for want of data or raises, split in two
    parts such that nothing is processed or saved in the first and nothing
    is loaded or warned about in the second. The directory is made first,
    also when no file is found. *)
Theorem load_then_template names csv_files output_dir train_ratio seed fs :
  ∃ before after,
    (create_datasets_for_prompts names csv_files output_dir train_ratio seed fs).1
      = MakeDirs output_dir :: before ++ after ∧
    processed_prompts before = [] ∧ saves before = [] ∧
    loads after = [] ∧ warned after = [].
Proof.
  rewrite create_datasets_for_prompts_shape.
  destruct (load_all_events_quiet csv_files train_ratio seed fs) as [Hs Hp].
  destruct (load_all_csv_files csv_files train_ratio seed fs) as [ev [e|[raw|]]];
    cbn [fst snd] in *.
  - exists ([Say (nl +:+ rule); Say "Step 1: Loading all CSV files"; Say rule] ++ ev), [].
    rewrite app_nil_r, processed_prompts_app, saves_app, Hs, Hp. done.
  - exists ([Say (nl +:+ rule); Say "Step 1: Loading all CSV files"; Say rule] ++ ev ++
            [TotalSamples (length (train raw)) (length (test raw)); Say (nl +:+ rule);
             Say "Step 2: Creating datasets for each system prompt"; Say rule]),
           (prompts_loop names raw output_dir ∅ fs).1.
    rewrite !processed_prompts_app, !saves_app, Hs, Hp.
    rewrite prompts_loop_loads, prompts_loop_warned.
    split; [|done]. cbn. by rewrite <-!app_assoc.
  - exists ([Say (nl +:+ rule); Say "Step 1: Loading all CSV files"; Say rule] ++ ev), [].
    rewrite app_nil_r, processed_prompts_app, saves_app, Hs, Hp. done.
Qed.

Lemma templated_length sys (ds out : Dataset) :
  Forall2 (templated sys) ds out → length out = length ds.
Proof. intros Hall. symmetry. by eapply Forall2_length. Qed.

Lemma prompts_loop_results names raw output_dir results fs events res :
  prompts_loop names raw output_dir results fs = (events, Ok res) →
  ∀ name, res !! name =
          if decide (name ∈ names) then Some (info_of raw output_dir name)
          else results !! name.
Proof.
  revert results events. induction names as [|n names IH]; intros results events.
  { cbn. intros [= _ <-] name. rewrite decide_False; [done|]. apply not_elem_of_nil. }
  cbn [prompts_loop]. rewrite sbind_emit.
  destruct (create_dataset_for_prompt_run raw n output_dir fs)
    as [(sys & processed & Hsys & Hgen & Hrun)|(e & Hrun & _)].
  - rewrite (sbind_Ok _ _ fs _ _ Hrun). rewrite !sbind_emit, !after_after.
    destruct (prompts_loop names raw output_dir _ fs) as [ev r] eqn:Hloop.
    unfold after. cbn [fst snd]. intros [= _ ->] name.
    rewrite (IH _ _ Hloop name).
    apply make_generation_dataset_dict in Hgen as [Htr Hte].
    apply templated_length in Htr, Hte.
    destruct (decide (name ∈ names)) as [Hin|Hnin].
    + rewrite decide_True by (by right). done.
    + destruct (decide (name = n)) as [->|Hne].
      * rewrite decide_True by left. rewrite lookup_insert_eq.
        unfold info_of. cbn [fst snd]. by rewrite Htr, Hte.
      * rewrite decide_False by (rewrite elem_of_cons; tauto).
        by rewrite lookup_insert_ne.
  - rewrite (sbind_Raise _ _ fs _ _ Hrun). unfold after. cbn. done.
Qed.

(** X9. The [results] a successful run returns has one entry for each
    prompt name and no other; the entry holds the save path of the prompt
    and, for every prompt alike, the sizes of the two halves of the combined
    corpus. *)
Theorem results_report_the_corpus_sizes names csv_files output_dir train_ratio seed
    fs events results :
  create_datasets_for_prompts names csv_files output_dir train_ratio seed fs
    = (events, Ok (Some results)) →
  ∃ raw,
    (load_all_csv_files csv_files train_ratio seed fs).2 = Ok (Some raw) ∧
    ∀ name, results !! name =
            if decide (name ∈ names)
            then Some {| path := os_path_join output_dir ("lifesnaps_" +:+ name);
                         train_size := length (train raw);
                         test_size := length (test raw) |}
            else None.
Proof.
  rewrite create_datasets_for_prompts_shape.
  destruct (load_all_csv_files csv_files train_ratio seed fs) as [ev [e|[raw|]]];
    cbn [fst snd]; [done| |done].
  destruct (prompts_loop names raw output_dir ∅ fs) as [ev' [e|res]] eqn:Hloop;
    cbn [fst snd]; [done|].
  intros [= _ <-]. exists raw. split; [done|]. intros name.
  rewrite (prompts_loop_results _ _ _ _ _ _ _ Hloop name).
  by rewrite lookup_empty.
Qed.

Lemma single_prompt_run csv_files output_dir sys_prompt_name train_ratio seed fs
    events processed :
  create_dataset_for_single_prompt csv_files output_dir sys_prompt_name
    train_ratio seed fs = (events, Ok (Some processed)) →
  ∃ raw sys,
    (load_all_csv_files csv_files train_ratio seed fs).2 = Ok (Some raw) ∧
    get_sys_prompt sys_prompt_name = Ok sys ∧
    make_generation_dataset raw sys = Ok processed ∧
    saves events = [(save_path_of output_dir sys_prompt_name, processed)] ∧
    loads events = (λ it, it.1.2) <$> present csv_files fs.
Proof.
  unfold create_dataset_for_single_prompt.
  rewrite sbind_emit, header_run, sbind_emit, !after_after.
  destruct (load_all_csv_files_run csv_files train_ratio seed fs)
    as (ev & splits & _ & Hloads & Hsaves & _ & Hcase).
  destruct splits as [|sp splits].
  { destruct Hcase as [Hrun _]. rewrite (sbind_Ok _ _ fs _ _ Hrun).
    unfold after, sret. cbn. done. }
  destruct Hcase as (raw & _ & Hrun). rewrite (sbind_Ok _ _ fs _ _ Hrun).
  rewrite !sbind_emit, !after_after.
  destruct (create_dataset_for_prompt_run raw sys_prompt_name output_dir fs)
    as [(sys & p & Hsys & Hgen & Hone)|(e & Hone & _)].
  - rewrite (sbind_Ok _ _ fs _ _ Hone), sbind_emit, !after_after.
    unfold after, sret. cbn [fst snd]. intros [= <- <-].
    exists raw, sys. rewrite Hrun. cbn [snd].
    match goal with
    | |- context [saves (?a :: ?b :: ?c :: ?d :: ?e :: ?X)] =>
        change (a :: b :: c :: d :: e :: X) with ([a; b; c; d; e] ++ X)
    end.
    rewrite !saves_app, !loads_app, Hsaves, Hloads. cbn.
    by rewrite !app_nil_r.
  - rewrite (sbind_Raise _ _ fs _ _ Hone). unfold after. cbn. done.
Qed.

(** X10. A run for a single prompt loads the corpus as the run for all
    prompts does, saves one dataset, at the save path of the prompt, and
    returns that dataset: the corpus templated with the system prompt of the
    name. *)
Theorem single_prompt_saves_what_it_returns csv_files output_dir sys_prompt_name
    train_ratio seed fs events processed :
  create_dataset_for_single_prompt csv_files output_dir sys_prompt_name
    train_ratio seed fs = (events, Ok (Some processed)) →
  ∃ raw sys,
    (load_all_csv_files csv_files train_ratio seed fs).2 = Ok (Some raw) ∧
    get_sys_prompt sys_prompt_name = Ok sys ∧
    make_generation_dataset raw sys = Ok processed ∧
    saves events = [(os_path_join output_dir ("lifesnaps_" +:+ sys_prompt_name), processed)] ∧
    loads events = (λ it, it.1.2) <$> present csv_files fs.
Proof.
  intros Hrun.
  destruct (single_prompt_run _ _ _ _ _ _ _ _ Hrun)
    as (raw & sys & Hraw & Hsys & Hgen & Hsaves & Hloads).
  exists raw, sys. by repeat split.
Qed.

(** Templating succeeds when every row has a field to take the problem
    from. *)
Lemma generation_total sys (ds : Dataset) :
  Forall (λ r, is_Some (problem_field r)) ds →
  ∃ out, dataset_map (make_generation_conversation sys) ds = Ok out.
Proof.
  intros Hall. unfold dataset_map. apply rmapM_all_Ok.
  eapply Forall_impl; [exact Hall|]. intros r [v Hv].
  assert (make_generation_conversation sys r =
          Ok {[ "prompt" := VConversation (prompt_of sys (user_format (py_str v))) ]})
    as -> by (apply make_generation_conversation_Ok; eauto).
  by eexists.
Qed.

Lemma prompts_loop_cons_Ok n names raw output_dir results fs sys p :
  get_sys_prompt n = Ok sys → make_generation_dataset raw sys = Ok p →
  prompts_loop (n :: names) raw output_dir results fs =
  after [Processing n; SaveToDisk (save_path_of output_dir n) p;
         SavedTo (save_path_of output_dir n); Sizes (length (train p)) (length (test p))]
    (prompts_loop names raw output_dir
       (<[ n := {| path := save_path_of output_dir n; train_size := length (train p);
                   test_size := length (test p) |} ]> results) fs).
Proof.
  intros Hsys Hgen. cbn [prompts_loop]. rewrite sbind_emit.
  destruct (create_dataset_for_prompt_run raw n output_dir fs)
    as [(sys' & p' & Hsys' & Hgen' & Hrun)|(e' & _ & [Hget|(sys' & Hsys' & Hgen')])].
  - rewrite Hsys in Hsys'. injection Hsys' as <-.
    rewrite Hgen in Hgen'. injection Hgen' as <-.
    rewrite (sbind_Ok _ _ fs _ _ Hrun). rewrite !sbind_emit, !after_after. done.
  - rewrite Hsys in Hget. done.
  - rewrite Hsys in Hsys'. injection Hsys' as <-.
    rewrite Hgen in Hgen'. done.
Qed.

Lemma prompts_loop_cons_Raise n names raw output_dir results fs e :
  get_sys_prompt n = Raise e →
  prompts_loop (n :: names) raw output_dir results fs = ([Processing n], Raise e).
Proof.
  intros Hget. cbn [prompts_loop]. rewrite sbind_emit.
  destruct (create_dataset_for_prompt_run raw n output_dir fs)
    as [(sys & p & Hsys & _)|(e' & Hrun & [Hget'|(sys & Hsys & _)])];
    [rewrite Hget in Hsys; done| |rewrite Hget in Hsys; done].
  rewrite Hget in Hget'. injection Hget' as <-.
  rewrite (sbind_Raise _ _ fs _ _ Hrun). unfold after. cbn. done.
Qed.

Lemma prompts_loop_unknown before name later raw output_dir results fs e :
  Forall (λ r, is_Some (problem_field r)) (train raw) →
  Forall (λ r, is_Some (problem_field r)) (test raw) →
  Forall (λ n, ∃ sys, get_sys_prompt n = Ok sys) before →
  get_sys_prompt name = Raise e →
  (prompts_loop (before ++ name :: later) raw output_dir results fs).2 = Raise e ∧
  Forall2 (saved_for raw output_dir) before
    (saves (prompts_loop (before ++ name :: later) raw output_dir results fs).1) ∧
  processed_prompts (prompts_loop (before ++ name :: later) raw output_dir results fs).1
    = before ++ [name].
Proof.
  intros Htr Hte Hbefore Hname. revert results.
  induction Hbefore as [|n before [sys Hsys] _ IH]; intros results; cbn [app].
  - rewrite (prompts_loop_cons_Raise _ _ _ _ _ _ _ Hname). cbn.
    split; [done|]. split; [constructor|done].
  - destruct (generation_total sys (train raw) Htr) as [tr Htr'].
    destruct (generation_total sys (test raw) Hte) as [te Hte'].
    assert (make_generation_dataset raw sys = Ok {| train := tr; test := te |}) as Hgen.
    { unfold make_generation_dataset, dmap, DatasetDict_mappable.
      by rewrite Htr', Hte'. }
    rewrite (prompts_loop_cons_Ok _ _ _ _ _ _ _ _ Hsys Hgen).
    unfold after. cbn [fst snd]. rewrite saves_app, processed_prompts_app.
    destruct (IH (<[ n := {| path := save_path_of output_dir n;
                             train_size := length (train {| train := tr; test := te |});
                             test_size := length (test {| train := tr; test := te |}) |} ]>
                    results)) as (Hr & Hsaved & Hproc).
    rewrite Hproc. split; [exact Hr|]. split; [|done].
    cbn [train test] in Hsaved.
    change (saves [Processing n; SaveToDisk (save_path_of output_dir n)
                                   {| train := tr; test := te |};
                   SavedTo (save_path_of output_dir n);
                   Sizes (length (train {| train := tr; test := te |}))
                     (length (test {| train := tr; test := te |}))])
      with [(save_path_of output_dir n, {| train := tr; test := te |})].
    constructor; [|exact Hsaved]. split; [done|]. exists sys. by split.
Qed.

(** X11. When the system prompt of a name cannot be found, the run stops
    there with the error of [get_sys_prompt]; the datasets of the prompts
    before it are saved already, each the corpus templated for its prompt,
    and nothing is saved for that prompt or for the ones after it. *)
Theorem unknown_prompt_keeps_earlier_saves before name later csv_files output_dir
    train_ratio seed fs raw e :
  (load_all_csv_files csv_files train_ratio seed fs).2 = Ok (Some raw) →
  Forall (λ r, is_Some (problem_field r)) (train raw ++ test raw) →
  Forall (λ n, ∃ sys, get_sys_prompt n = Ok sys) before →
  get_sys_prompt name = Raise e →
  let run := create_datasets_for_prompts (before ++ name :: later) csv_files output_dir
               train_ratio seed fs in
  run.2 = Raise e ∧
  Forall2 (saved_for raw output_dir) before (saves run.1) ∧
  processed_prompts run.1 = before ++ [name].
Proof.
  intros Hload Hrows Hbefore Hname run. subst run.
  rewrite create_datasets_for_prompts_shape.
  destruct (load_all_events_quiet csv_files train_ratio seed fs) as [Hs Hp].
  destruct (load_all_csv_files csv_files train_ratio seed fs) as [ev [?|[raw'|]]];
    cbn [fst snd] in *; try done.
  injection Hload as ->.
  apply Forall_app in Hrows as [Htr Hte].
  destruct (prompts_loop_unknown before name later raw output_dir ∅ fs e
              Htr Hte Hbefore Hname) as (Hr & Hsaved & Hproc).
  rewrite !saves_app, !processed_prompts_app, Hs, Hp, Hr, Hproc. cbn.
  split; [done|]. split; [exact Hsaved|done].
Qed.

Lemma save_path_of_inj output_dir name1 name2 :
  save_path_of output_dir name1 = save_path_of output_dir name2 → name1 = name2.
Proof.
  rewrite !save_path_of_eq.
  destruct (String.eqb output_dir EmptyString || ends_with_sep output_dir); intros Heq.
  - apply string_app_inj_r in Heq. by apply (string_app_inj_r "lifesnaps_") in Heq.
  - apply string_app_inj_r in Heq. by apply (string_app_inj_r "/lifesnaps_") in Heq.
Qed.

(** X12. Two prompts never share a save path: under one output directory
    the save path determines the prompt name, so in a run over distinct
    names no prompt overwrites the dataset of another. *)
Theorem save_paths_are_distinct output_dir names :
  (∀ name1 name2,
     os_path_join output_dir ("lifesnaps_" +:+ name1) =
     os_path_join output_dir ("lifesnaps_" +:+ name2) → name1 = name2) ∧
  (NoDup names →
   NoDup ((λ name, os_path_join output_dir ("lifesnaps_" +:+ name)) <$> names)).
Proof.
  split.
  - intros name1 name2. apply save_path_of_inj.
  - intros Hnd. apply NoDup_fmap_2; [|done].
    intros name1 name2. apply save_path_of_inj.
Qed.

End EntryPoints.

Lemma results_report_the_corpus_sizes_witness :
  ∃ events results,
    @create_datasets_for_all_prompts StandIn.libs StandIn.files "out"
      DEFAULT_TRAIN_RATIO DEFAULT_SEED StandIn.disk = (events, Ok (Some results)) ∧
    results !! "tabc" =
      Some {| path := "out/lifesnaps_tabc"; train_size := 11; test_size := 3 |} ∧
    results !! "other" = None.
Proof.
  eexists _, _. split; [reflexivity|].
  destruct (@results_report_the_corpus_sizes StandIn.libs ALL_SYS_PROMPTS StandIn.files
              "out" DEFAULT_TRAIN_RATIO DEFAULT_SEED StandIn.disk _ _ eq_refl)
    as (raw & Hraw & Hres).
  vm_compute in Hraw. injection Hraw as <-.
  split; [exact (Hres "tabc")|exact (Hres "other")].
Defined.

Lemma single_prompt_saves_what_it_returns_witness :
  ∃ events processed,
    @create_dataset_for_single_prompt StandIn.libs StandIn.files "out" "tac"
      DEFAULT_TRAIN_RATIO DEFAULT_SEED StandIn.disk = (events, Ok (Some processed)) ∧
    saves events = [("out/lifesnaps_tac", processed)].
Proof.
  eexists _, _. split; [reflexivity|].
  destruct (@single_prompt_saves_what_it_returns StandIn.libs StandIn.files "out" "tac"
              DEFAULT_TRAIN_RATIO DEFAULT_SEED StandIn.disk _ _ eq_refl)
    as (raw & sys & _ & _ & _ & Hsaves & _).
  exact Hsaves.
Defined.

Lemma save_paths_are_distinct_witness :
  NoDup ALL_SYS_PROMPTS ∧
  NoDup ((λ name, os_path_join "out" ("lifesnaps_" +:+ name)) <$> ALL_SYS_PROMPTS).
Proof.
  assert (NoDup ALL_SYS_PROMPTS) as Hnd by (apply (bool_decide_unpack _); by vm_compute).
  split; [exact Hnd|].
  exact (proj2 (save_paths_are_distinct "out" ALL_SYS_PROMPTS) Hnd).
Defined.

Lemma unknown_prompt_keeps_earlier_saves_witness :
  let run := @create_datasets_for_prompts StandIn.libs (["gen"] ++ "nope" :: ["tac"])
               StandIn.files "out" (8 # 10)%Q 42 StandIn.disk in
  run.2 = Raise (ValueError "nope") ∧
  length (saves run.1) = 1 ∧
  processed_prompts run.1 = ["gen"; "nope"].
Proof.
  assert (∃ raw, (@load_all_csv_files StandIn.libs StandIn.files (8 # 10)%Q 42
                    StandIn.disk).2 = Ok (Some raw) ∧
                 Forall (λ r, is_Some (problem_field r)) (train raw ++ test raw))
    as (raw & Hload & Hrows).
  { eexists. split; [reflexivity|].
    apply (bool_decide_unpack _). vm_compute. exact I. }
  assert (Forall (λ n, ∃ sys, @get_sys_prompt StandIn.libs n = Ok sys) ["gen"]) as Hgen
    by (repeat constructor; by eexists).
  destruct (@unknown_prompt_keeps_earlier_saves StandIn.libs ["gen"] "nope" ["tac"]
              StandIn.files "out" (8 # 10)%Q 42 StandIn.disk raw (ValueError "nope")
              Hload Hrows Hgen eq_refl) as (Hr & Hsaved & Hproc).
  split; [exact Hr|]. split; [|exact Hproc].
  symmetry. exact (Forall2_length _ _ _ Hsaved).
Defined.

(* ===================================================================== *)
(** ** The generation templater *)
(* ===================================================================== *)

Lemma problem_field_is_Some (r : row) :
  is_Some (problem_field r) ↔ is_Some (r !! "question") ∨ is_Some (r !! "problem").
Proof.
  unfold problem_field. destruct (r !! "question") as [q|].
  - split; [by left|by eexists].
  - split; [by right|]. intros [[? ?]|?]; done.
Qed.

Lemma problem_field_insert_prompt (r : row) v :
  problem_field (<[ "prompt" := v ]> r) = problem_field r.
Proof. unfold problem_field. by rewrite !lookup_insert_ne. Qed.

(** X13. Templating a dataset has two outcomes only. If every row has a
    [question] or a [problem] field it returns as many rows as it was
    given; otherwise it raises [KeyError('problem')] and returns nothing,
    whatever the other rows hold. *)
Theorem generation_outcome sys_prompt (ds : Dataset) :
  (Forall (λ r : row, is_Some (r !! "question") ∨ is_Some (r !! "problem")) ds ∧
   ∃ out, make_generation_dataset ds sys_prompt = Ok out ∧ length out = length ds) ∨
  (Exists (λ r : row, r !! "question" = None ∧ r !! "problem" = None) ds ∧
   make_generation_dataset ds sys_prompt = Raise (KeyError "problem")).
Proof.
  unfold make_generation_dataset, dmap, Dataset_mappable.
  destruct (dataset_map (make_generation_conversation sys_prompt) ds) as [e|out] eqn:Hmap.
  - right. unfold dataset_map in Hmap.
    apply rmapM_Raise_inv in Hmap as (r & Hr & Hraise).
    destruct (make_generation_conversation sys_prompt r) as [e'|o] eqn:Ho; [|done].
    cbn in Hraise. injection Hraise as <-.
    apply make_generation_conversation_Raise in Ho as [-> Hnone].
    split; [|done]. apply Exists_exists. exists r. split; [done|].
    unfold problem_field in Hnone. by destruct (r !! "question").
  - left. apply dataset_map_generation in Hmap. split.
    + eapply Forall2_Forall_l; [exact Hmap|]. apply Forall_forall.
      intros r _ r' (v & Hv & _). apply problem_field_is_Some. by eexists.
    + exists out. split; [done|]. by eapply templated_length.
Qed.

(** X14. Templating changes the [prompt] column and nothing else: every
    row keeps its place and, under every other key, the value it had; a
    [prompt] the row already had is replaced. *)
Theorem generation_touches_only_prompt sys_prompt (ds out : Dataset) :
  make_generation_dataset ds sys_prompt = Ok out →
  Forall2 (λ r r' : row,
             (∀ k, k ≠ "prompt" → r' !! k = r !! k) ∧
             ∃ user, r' !! "prompt" = Some (VConversation (prompt_of sys_prompt user)))
    ds out.
Proof.
  intros Hgen. apply dataset_map_generation in Hgen.
  eapply Forall2_impl; [exact Hgen|]. intros r r' (v & _ & ->). split.
  - intros k Hk. by rewrite lookup_insert_ne.
  - eexists. by rewrite lookup_insert_eq.
Qed.

(** X15. A dataset that is templated already can be templated again: the
    result is what templating the original dataset gives, so a second
    system prompt replaces the first and leaves no trace of it. *)
Theorem retemplating_replaces_the_prompt sys1 sys2 (ds out1 : Dataset) :
  make_generation_dataset ds sys1 = Ok out1 →
  make_generation_dataset out1 sys2 = make_generation_dataset ds sys2.
Proof.
  intros Hgen. apply dataset_map_generation in Hgen.
  unfold make_generation_dataset, dmap, Dataset_mappable, dataset_map.
  induction Hgen as [|r r1 ds out1 (v & Hv & ->) _ IH]; [done|].
  cbn [rmapM]. rewrite IH. f_equal.
  assert (problem_field
            (<[ "prompt" := VConversation (prompt_of sys1 (user_format (py_str v))) ]> r)
          = Some v) as Hv1 by (by rewrite problem_field_insert_prompt).
  rewrite (proj2 (make_generation_conversation_Ok sys2 _ _)
             (ex_intro _ v (conj Hv1 eq_refl))).
  rewrite (proj2 (make_generation_conversation_Ok sys2 r _)
             (ex_intro _ v (conj Hv eq_refl))).
  cbn [rbind]. f_equal.
  rewrite <-2!insert_union_singleton_l. by rewrite insert_insert_eq.
Qed.


Lemma generation_touches_only_prompt_witness :
  ∃ out : Dataset,
    make_generation_dataset [StandIn.record "p" (VInt 1) "sleep"] "S" = Ok out ∧
    Forall2 (λ r r' : row, r' !! "answer" = r !! "answer")
      [StandIn.record "p" (VInt 1) "sleep"] out.
Proof.
  assert (∃ out : Dataset,
            make_generation_dataset [StandIn.record "p" (VInt 1) "sleep"] "S" = Ok out)
    as [out Hout] by (eexists; reflexivity).
  exists out. split; [exact Hout|].
  eapply Forall2_impl; [exact (generation_touches_only_prompt "S" _ out Hout)|].
  intros r r' [Hk _]. by apply Hk.
Defined.

Lemma retemplating_replaces_the_prompt_witness :
  ∃ out1 : Dataset,
    make_generation_dataset [StandIn.record "p" (VInt 1) "sleep"] "first" = Ok out1 ∧
    make_generation_dataset out1 "second" =
    make_generation_dataset [StandIn.record "p" (VInt 1) "sleep"] "second".
Proof.
  assert (∃ out : Dataset,
            make_generation_dataset [StandIn.record "p" (VInt 1) "sleep"] "first" = Ok out)
    as [out Hout] by (eexists; reflexivity).
  exists out. split; [exact Hout|].
  exact (retemplating_replaces_the_prompt "first" "second" _ out Hout).
Defined.

(* ===================================================================== *)
(** ** The healthcare templater *)
(* ===================================================================== *)

(** X16. When the healthcare templater accepts a record. It always needs
    an [answer]. With [add_instruction] it needs a [problem] that is text
    and a [source] that is text or absent; without it any [problem] will
    do and the [source] is not looked at. *)
Theorem healthcare_accepts_iff sys_prompt add_instruction example :
  (∃ out, process_example sys_prompt add_instruction example = Ok out) ↔
  is_Some (example !! "answer") ∧
  if add_instruction
  then (∃ s, example !! "problem" = Some (VStr s)) ∧
       (example !! "source" = None ∨ ∃ s, example !! "source" = Some (VStr s))
  else is_Some (example !! "problem").
Proof.
  split.
  - intros [out Hout]. pose proof Hout as Hout'.
    apply process_example_Ok in Hout as (p & a & text & Hp & Ha & Htext & _).
    split; [by eexists|]. destruct add_instruction; [|by eexists].
    destruct Htext as (s & instr & -> & _). split; [by eexists|].
    unfold process_example, getitem, get_default in Hout'. rewrite Hp in Hout'.
    cbn [rbind] in Hout'.
    destruct (example !! "source") as [[src| | | |]|]; cbn in Hout'; try done.
    + right. by eexists.
    + by left.
  - intros [[a Ha] Hrest]. unfold process_example, getitem, get_default.
    destruct add_instruction.
    + destruct Hrest as [[s Hs] Hsrc]. rewrite Hs, Ha. cbn [rbind].
      assert (∃ src, default (VStr "PMData") (example !! "source") = VStr src)
        as [src ->].
      { destruct Hsrc as [->|[src ->]]; by eexists. }
      cbn [lower_of rbind].
      destruct (str_in "fatigue" (lower src));
        [|cbn [lower_of rbind]; destruct (str_in "readiness" (lower src));
          [|cbn [lower_of rbind]; destruct (str_in "sleep_quality" (lower src));
            [|cbn [lower_of rbind]; destruct (str_in "stress" (lower src))]]];
        cbn; by eexists.
    + destruct Hrest as [p Hp]. rewrite Hp, Ha. cbn. by eexists.
Qed.

(** X17. A record without a [source] is templated as a record of an
    unknown task: the generic instruction is appended to its problem, and
    the row gets the source ["healthcare"]. *)
Theorem healthcare_without_source sys_prompt example s a :
  example !! "source" = None →
  example !! "problem" = Some (VStr s) → example !! "answer" = Some a →
  process_example sys_prompt true example =
  Ok (<[ "prompt" := VConversation
                       (prompt_of sys_prompt (user_format (s +:+ default_instruction))) ]>
      (<[ "answer" := VStr (py_str a) ]> {[ "source" := VStr "healthcare" ]})).
Proof.
  intros Hsrc Hp Ha. unfold process_example, getitem, get_default.
  rewrite Hsrc, Hp, Ha. done.
Qed.

(** X18. The healthcare templater writes the [prompt], [answer] and
    [source] columns and no other: every row keeps its place and every
    other column, the [problem] among them, so the instruction it appends
    shows in the prompt only. *)
Theorem healthcare_touches_three_columns sys_prompt add_instruction (ds out : Dataset) :
  make_healthcare_dataset ds sys_prompt add_instruction = Ok out →
  Forall2 (λ r r' : row,
             ∀ k, k ≠ "prompt" → k ≠ "answer" → k ≠ "source" → r' !! k = r !! k)
    ds out.
Proof.
  unfold make_healthcare_dataset, dataset_map. rewrite rmapM_Ok.
  intros Hall. eapply Forall2_impl; [exact Hall|]. intros r r' Hr k Hk1 Hk2 Hk3.
  cbn beta in Hr.
  destruct (process_example sys_prompt add_instruction r) as [e|o] eqn:Ho;
    cbn in Hr; [done|].
  injection Hr as <-.
  apply process_example_Ok in Ho as (p & a & text & _ & _ & _ & ->).
  rewrite lookup_union_r; [done|].
  rewrite !lookup_insert_ne by congruence. by rewrite lookup_singleton_ne by congruence.
Qed.

(* ===================================================================== *)
(** ** The coercion of the answer, and the user turn *)
(* ===================================================================== *)

Lemma str_int_inj z1 z2 : str_int z1 = str_int z2 → z1 = z2.
Proof.
  unfold str_int. intros Heq.
  assert (∀ z, NilZero.int_of_string (NilZero.string_of_int (Z.to_int z))
               = Some (Z.to_int z)) as Hisi.
  { intros z. apply NilZero.isi; destruct z; cbn; try done;
      intros [= Hnil]; by apply Unsigned.to_uint_nonnil in Hnil. }
  pose proof (Hisi z1) as H1. rewrite Heq, Hisi in H1. injection H1 as H1.
  by rewrite <-(DecimalZ.of_to z1), <-(DecimalZ.of_to z2), H1.
Qed.

Lemma string_length_app (x y : string) :
  String.length (x +:+ y) = String.length x + String.length y.
Proof. induction x as [|c x IH]; [done|]. simpl. by rewrite IH. Qed.

Lemma string_app_inj_l (x y s : string) : x +:+ s = y +:+ s → x = y.
Proof.
  revert y. induction x as [|c x IH]; intros [|d y] Heq.
  - done.
  - exfalso. apply (f_equal String.length) in Heq.
    rewrite (string_length_app (String d y) s) in Heq.
    change (String.length (EmptyString +:+ s)) with (String.length s) in Heq.
    change (String.length (String d y)) with (S (String.length y)) in Heq. lia.
  - exfalso. apply (f_equal String.length) in Heq.
    rewrite (string_length_app (String c x) s) in Heq.
    change (String.length (EmptyString +:+ s)) with (String.length s) in Heq.
    change (String.length (String c x)) with (S (String.length x)) in Heq. lia.
  - change (String c (x +:+ s) = String d (y +:+ s)) in Heq.
    injection Heq as -> Heq. f_equal. by apply IH.
Qed.

(** X19. Coercing the answers to text keeps integer labels apart: two
    integer answers with the same text are the same integer. *)
Theorem astype_str_keeps_labels_apart z1 z2 :
  astype_str (VInt z1) = astype_str (VInt z2) → z1 = z2.
Proof. unfold astype_str. cbn. intros [= Heq]. by apply str_int_inj. Qed.


(** X21. The user turn loses nothing of the problem text: two problem
    texts with the same user turn are the same text. *)
Theorem user_format_inj text1 text2 :
  user_format text1 = user_format text2 → text1 = text2.
Proof.
  unfold user_format. intros Heq.
  do 3 apply string_app_inj_r in Heq.
  change (text1 +:+ nl +:+ nl) with (text1 +:+ (nl +:+ nl)) in Heq.
  by apply string_app_inj_l in Heq.
Qed.

(* ===================================================================== *)
(** ** The outcomes of [process_dataset] *)
(* ===================================================================== *)

Section ProcessDataset.
Context `{Libraries}.

(** X22. [process_dataset] on a dataset raises in two cases only. The
    system prompt of the name is not found: it raises the error of
    [get_sys_prompt], also when [task_spec] asks for no templating. Or the
    prompt is found, [task_spec] is ["gen"] and a row has neither a
    [question] nor a [problem]: it raises [KeyError('problem')]. *)
Theorem process_dataset_raises_iff (ds : Dataset) script_args e :
  process_dataset ds script_args = Raise e ↔
  get_sys_prompt (sys_prompt_name script_args) = Raise e ∨
  ((∃ sys, get_sys_prompt (sys_prompt_name script_args) = Ok sys) ∧
   task_spec script_args = "gen" ∧ e = KeyError "problem" ∧
   Exists (λ r : row, r !! "question" = None ∧ r !! "problem" = None) ds).
Proof.
  unfold process_dataset.
  destruct (get_sys_prompt (sys_prompt_name script_args)) as [e'|sys]; cbn [rbind].
  - split; [intros [= ->]; by left|]. intros [[= ->]|[[? ?] _]]; done.
  - case_decide as Hts.
    + destruct (decide (Forall (λ r, is_Some (problem_field r)) ds)) as [Hok|Hbad].
      * destruct (generation_total sys ds Hok) as [out Hout].
        unfold make_generation_dataset, dmap, Dataset_mappable. rewrite Hout.
        split; [done|]. intros [?|(_ & _ & _ & Hex)]; [done|].
        exfalso. apply Exists_exists in Hex as (r & Hr & Hq & Hp).
        rewrite Forall_forall in Hok. destruct (Hok r Hr) as [v Hv].
        unfold problem_field in Hv. rewrite Hq, Hp in Hv. done.
      * apply not_Forall_Exists in Hbad; [|apply _].
        apply Exists_exists in Hbad as (r & Hr & Hnone).
        assert (problem_field r = None) as Hpf.
        { destruct (problem_field r) eqn:Hv; [|done]. exfalso. apply Hnone. by eexists. }
        rewrite (generation_raises_on sys r ds Hpf Hr). split.
        -- intros [= <-]. right. split; [by eexists|]. split; [done|]. split; [done|].
           apply Exists_exists. exists r. split; [done|].
           unfold problem_field in Hpf. by destruct (r !! "question").
        -- intros [?|(_ & _ & -> & _)]; done.
    + split; [done|]. intros [?|(_ & ? & _)]; done.
Qed.

End ProcessDataset.

Lemma healthcare_without_source_witness :
  ({[ "problem" := VStr "p"; "answer" := VInt 2 ]} : row) !! "source" = None ∧
  ∃ out, process_example "S" true {[ "problem" := VStr "p"; "answer" := VInt 2 ]} = Ok out ∧
         out !! "source" = Some (VStr "healthcare").
Proof.
  assert (({[ "problem" := VStr "p"; "answer" := VInt 2 ]} : row) !! "source" = None)
    as Hsrc by reflexivity.
  assert (({[ "problem" := VStr "p"; "answer" := VInt 2 ]} : row) !! "problem"
          = Some (VStr "p")) as Hp by reflexivity.
  assert (({[ "problem" := VStr "p"; "answer" := VInt 2 ]} : row) !! "answer"
          = Some (VInt 2)) as Ha by reflexivity.
  split; [exact Hsrc|]. eexists. split.
  - exact (healthcare_without_source "S" _ "p" (VInt 2) Hsrc Hp Ha).
  - reflexivity.
Defined.

Lemma healthcare_touches_three_columns_witness :
  ∃ out : Dataset,
    make_healthcare_dataset [StandIn.record "p" (VInt 1) "PMData-fatigue"] "S" true = Ok out ∧
    Forall2 (λ r r' : row, r' !! "problem" = r !! "problem")
      [StandIn.record "p" (VInt 1) "PMData-fatigue"] out.
Proof.
  assert (∃ out : Dataset,
            make_healthcare_dataset [StandIn.record "p" (VInt 1) "PMData-fatigue"] "S" true
            = Ok out) as [out Hout] by (eexists; reflexivity).
  exists out. split; [exact Hout|].
  eapply Forall2_impl; [exact (healthcare_touches_three_columns "S" true _ out Hout)|].
  intros r r' Hk. by apply Hk.
Defined.

Lemma astype_str_keeps_labels_apart_witness :
  astype_str (VInt 1) = astype_str (VInt (2 - 1)) ∧ (1 = 2 - 1)%Z.
Proof.
  assert (astype_str (VInt 1) = astype_str (VInt (2 - 1))) as Heq by reflexivity.
  split; [exact Heq|]. exact (astype_str_keeps_labels_apart 1 (2 - 1) Heq).
Defined.

Lemma user_format_inj_witness :
  user_format ("a" +:+ "b") = user_format "ab" ∧ "a" +:+ "b" = "ab".
Proof.
  assert (user_format ("a" +:+ "b") = user_format "ab") as Heq by reflexivity.
  split; [exact Heq|]. exact (user_format_inj _ _ Heq).
Defined.

(* ===================================================================== *)
(** ** [main] *)
(* ===================================================================== *)

Lemma pushes_app ev1 ev2 : Cli.pushes (ev1 ++ ev2) = Cli.pushes ev1 ++ Cli.pushes ev2.
Proof. apply omap_app. Qed.

Lemma pushes_Ran events : Cli.pushes (Cli.Ran <$> events) = [].
Proof. induction events as [|e events IH]; [done|]. exact IH. Qed.

Lemma pushes_summary args : Cli.pushes (Cli.summary args) = [].
Proof. unfold Cli.summary. by destruct (String.eqb (Cli.sys_prompt args) "all"). Qed.

Lemma disk_of_saves events :
  Cli.disk_of events =
  foldl (λ (disk : gmap string DatasetDict) s, <[ s.1 := s.2 ]> disk) ∅ (saves events).
Proof.
  unfold Cli.disk_of. generalize (∅ : gmap string DatasetDict).
  induction events as [|e events IH]; intros disk; [done|].
  destruct e; cbn; apply IH.
Qed.

Lemma foldl_insert_lookup (saved : list (string * DatasetDict))
    (disk : gmap string DatasetDict) p ds :
  NoDup saved.*1 → (p, ds) ∈ saved →
  foldl (λ disk s, <[ s.1 := s.2 ]> disk) disk saved !! p = Some ds.
Proof.
  revert disk. induction saved as [|[q d] saved IH]; intros disk Hnd Hin.
  { by apply elem_of_nil in Hin. }
  cbn in Hnd. apply NoDup_cons in Hnd as [Hq Hnd]. cbn.
  apply elem_of_cons in Hin as [[= -> ->]|Hin]; [|by apply IH].
  clear IH. revert disk. induction saved as [|[q' d'] saved IH]; intros disk; cbn.
  - apply lookup_insert_eq.
  - cbn in Hq, Hnd. apply not_elem_of_cons in Hq as [Hne Hq].
    apply NoDup_cons in Hnd as [_ Hnd].
    rewrite insert_insert_ne by done. by apply IH.
Qed.

Lemma saves_cons_quiet e events :
  (∀ p ds, e ≠ SaveToDisk p ds) → saves (e :: events) = saves events.
Proof. intros He. destruct e; try done. by destruct (He save_path processed). Qed.

Section Main.
Context `{Libraries}.

(** X23. [main] pushes nothing to the hub unless it is asked to and told
    where: without [--push_to_hub], or with a hub name that is absent or
    empty, no dataset is read back from disk and none is pushed, whatever
    the mode and the files. *)
Theorem main_pushes_only_when_asked args fs :
  Cli.push_to_hub args = false ∨ Cli.hub_name args = None
    ∨ Cli.hub_name args = Some EmptyString →
  Cli.pushes (Cli.main args fs).1 = [].
Proof.
  intros Hno.
  assert (Cli.push_to_hub args && Cli.truthy_str (Cli.hub_name args) = false) as Hcond.
  { destruct Hno as [->|[->| ->]]; [done|..]; by rewrite andb_false_r. }
  unfold Cli.main, Cli.make_and_push.
  destruct (String.eqb (Cli.sys_prompt args) "all") eqn:Hall.
  - destruct (create_datasets_for_all_prompts _ _ _ _ fs) as [ev [e|results]].
    + cbn [fst]. by rewrite pushes_app, pushes_Ran.
    + rewrite Hcond. cbn [andb fst].
      rewrite !pushes_app, pushes_Ran, pushes_summary. done.
  - destruct (create_dataset_for_single_prompt _ _ _ _ _ fs) as [ev [e|[processed|]]].
    + cbn [fst]. by rewrite pushes_app, pushes_Ran.
    + rewrite Hcond. cbn [fst].
      rewrite !pushes_app, pushes_Ran, pushes_summary. done.
    + cbn [fst]. rewrite !pushes_app, pushes_Ran, pushes_summary. done.
Qed.

Lemma saved_paths_NoDup raw output_dir names (saved : list (string * DatasetDict)) :
  NoDup names → Forall2 (saved_for raw output_dir) names saved → NoDup saved.*1.
Proof.
  intros Hnd Hall.
  assert (saved.*1 = save_path_of output_dir <$> names) as ->.
  { induction Hall as [|n s names saved [Hs _] _ IH]; [done|].
    cbn. rewrite Hs. f_equal. apply IH. by apply NoDup_cons in Hnd as [_ ?]. }
  apply NoDup_fmap_2; [|done]. intros n1 n2. apply save_path_of_inj.
Qed.

Lemma items_of_results (results : gmap string prompt_info) (g : string → prompt_info)
    (names : list string) :
  (∀ n, n ∈ names → results !! n = Some (g n)) →
  omap (λ n, (λ info, (n, info)) <$> results !! n) names = (λ n, (n, g n)) <$> names.
Proof.
  induction names as [|n names IH]; intros Hres; [done|].
  cbn. rewrite (Hres n) by left. cbn. f_equal. apply IH.
  intros m Hm. apply Hres. by right.
Qed.

Lemma push_all_run hub raw output_dir names (saved : list (string * DatasetDict))
    (disk : gmap string DatasetDict) :
  Forall2 (saved_for raw output_dir) names saved →
  (∀ s, s ∈ saved → disk !! s.1 = Some s.2) →
  ∃ events,
    Cli.push_all hub ((λ n, (n, info_of raw output_dir n)) <$> names) disk
      = (events, Ok tt) ∧
    Cli.pushes events = zip_with (λ n s, (hub +:+ "_" +:+ n, s.2)) names saved.
Proof.
  intros Hall. induction Hall as [|n s names saved [Hs _] _ IH]; intros Hdisk.
  { exists []. done. }
  destruct IH as (ev & Hev & Hp).
  { intros t Ht. apply Hdisk. by right. }
  cbn [fmap list_fmap]. cbn [Cli.push_all]. unfold info_of at 1. cbn [path].
  rewrite <-Hs. rewrite (Hdisk s) by left.
  change (list_fmap _ _ ?f names) with (f <$> names). rewrite Hev.
  eexists. split; [done|]. cbn. unfold Cli.pushes in Hp. by rewrite Hp.
Qed.

(** X24. In the mode [all], asked to push under a hub name that is not
    empty, a run that made its datasets reads each one back from the path
    it was saved at and pushes it, privately, to [<hub_name>_<prompt>]: one
    push per prompt, in the order of [ALL_SYS_PROMPTS], of exactly the
    dataset saved for that prompt; then it ends without error. *)
Theorem main_pushes_every_saved_dataset args fs hub events results :
  Cli.sys_prompt args = "all" → Cli.push_to_hub args = true →
  Cli.hub_name args = Some hub → hub ≠ EmptyString →
  create_datasets_for_all_prompts CSV_FILES (Cli.output_dir args) (Cli.train_ratio args)
    (Cli.seed args) fs = (events, Ok (Some results)) →
  (Cli.main args fs).2 = Ok tt ∧
  Cli.pushes (Cli.main args fs).1 =
    zip_with (λ name s, (hub +:+ "_" +:+ name, s.2)) ALL_SYS_PROMPTS (saves events) ∧
  length (saves events) = length ALL_SYS_PROMPTS.
Proof.
  intros Hmode Hpush Hhub Hne Hrun.
  pose proof Hrun as Hshape. unfold create_datasets_for_all_prompts in Hshape.
  rewrite create_datasets_for_prompts_shape in Hshape.
  destruct (load_all_events_quiet CSV_FILES (Cli.train_ratio args) (Cli.seed args) fs)
    as [Hs Hp].
  destruct (load_all_csv_files CSV_FILES (Cli.train_ratio args) (Cli.seed args) fs)
    as [lev [?|[raw|]]]; cbn [fst snd] in Hshape, Hs; [done| |done].
  destruct (prompts_loop ALL_SYS_PROMPTS raw (Cli.output_dir args) ∅ fs)
    as [pev [?|res]] eqn:Hloop; cbn [fst snd] in Hshape; [done|].
  injection Hshape as Hevents <-.
  pose proof (prompts_loop_results _ _ _ _ _ _ _ Hloop) as Hres.
  apply prompts_loop_saves in Hloop as [Hall _].
  assert (saves events = saves pev) as Hsaves.
  { rewrite <-Hevents. cbn [app]. rewrite !saves_cons_quiet by done.
    rewrite !saves_app, Hs. done. }
  rewrite Hsaves.
  assert (NoDup ALL_SYS_PROMPTS) as Hnd.
  { apply (bool_decide_unpack _). by vm_compute. }
  destruct (push_all_run hub raw (Cli.output_dir args) ALL_SYS_PROMPTS (saves pev)
              (foldl (λ (disk : gmap string DatasetDict) s, <[ s.1 := s.2 ]> disk) ∅
                 (saves pev)) Hall)
    as (ev & Hev & Hpushes).
  { intros [p ds] Hin. apply foldl_insert_lookup; [|done].
    by eapply saved_paths_NoDup. }
  assert (Cli.items res =
          (λ n, (n, info_of raw (Cli.output_dir args) n)) <$> ALL_SYS_PROMPTS) as Hitems.
  { apply items_of_results. intros n Hn. rewrite Hres. by rewrite decide_True. }
  assert (negb (String.eqb hub EmptyString) = true) as Hhub_ne.
  { destruct (String.eqb_spec hub EmptyString); done. }
  assert (Cli.truthy_results (Some res) = true) as Hres_ne.
  { cbn. apply negb_true_iff, bool_decide_eq_false. intros Hempty.
    pose proof (Hres "gen") as Hgen. rewrite Hempty, lookup_empty in Hgen.
    rewrite decide_True in Hgen; [done|]. left. }
  unfold Cli.main, Cli.make_and_push.
  rewrite Hmode, String.eqb_refl, Hrun, Hpush, Hhub, Hres_ne.
  unfold Cli.truthy_str. rewrite Hhub_ne.
  cbn [andb default from_option]. unfold id.
  rewrite disk_of_saves, Hsaves, Hitems, Hev.
  cbn [fst snd]. split; [done|].
  split; [|symmetry; exact (Forall2_length _ _ _ Hall)].
  rewrite !pushes_app, pushes_Ran, pushes_summary, Hpushes. cbn.
  by rewrite app_nil_r.
Qed.

Lemma single_prompt_none csv_files output_dir name train_ratio seed fs :
  present csv_files fs = [] →
  ∃ events,
    create_dataset_for_single_prompt csv_files output_dir name train_ratio seed fs
      = (events, Ok None) ∧ saves events = [].
Proof.
  intros Hnone. unfold create_dataset_for_single_prompt.
  rewrite sbind_emit, header_run, sbind_emit, !after_after.
  destruct (load_all_csv_files_run csv_files train_ratio seed fs)
    as (ev & splits & Hall & _ & Hsaves & _ & Hcase).
  rewrite Hnone in Hall. apply Forall2_nil_inv_l in Hall as ->.
  destruct Hcase as [Hrun _]. rewrite (sbind_Ok _ _ fs _ _ Hrun).
  unfold after, sret. cbn [fst snd]. eexists. split; [done|].
  rewrite !saves_app, Hsaves. done.
Qed.

(** X25. When none of the files of [CSV_FILES] exists, [main] saves
    nothing and pushes nothing, in either mode and whatever the flags, yet
    it ends without error and its last lines are those of a finished run:
    the banner [Processing complete!] and the list of the datasets. *)
Theorem main_reports_completion_without_data args fs :
  (∀ it, it ∈ CSV_FILES → fs !! it.2 = None) →
  ∃ events,
    Cli.main args fs =
      (Cli.intro args ++ (Cli.Ran <$> events) ++ Cli.complete ++ Cli.summary args, Ok tt) ∧
    saves events = [] ∧ Cli.pushes (Cli.main args fs).1 = [].
Proof.
  intros Hmissing. pose proof (present_none _ _ Hmissing) as Hnone.
  assert (∃ events,
            Cli.main args fs =
              (Cli.intro args ++ (Cli.Ran <$> events) ++ Cli.complete ++ Cli.summary args,
               Ok tt) ∧ saves events = []) as (events & Hmain & Hsaves).
  { unfold Cli.main, Cli.make_and_push.
    destruct (String.eqb (Cli.sys_prompt args) "all") eqn:Hall.
    - unfold create_datasets_for_all_prompts. rewrite create_datasets_for_prompts_shape.
      destruct (load_all_events_quiet CSV_FILES (Cli.train_ratio args) (Cli.seed args) fs)
        as [Hs _].
      destruct (load_all_csv_files_run CSV_FILES (Cli.train_ratio args) (Cli.seed args) fs)
        as (ev & splits & Hsp & _ & _ & _ & Hcase).
      rewrite Hnone in Hsp. apply Forall2_nil_inv_l in Hsp as ->.
      destruct Hcase as [Hrun _]. rewrite Hrun in Hs |- *. cbn [fst snd] in Hs |- *.
      rewrite andb_false_r. eexists. split; [done|].
      cbn [app]. rewrite !saves_cons_quiet by done. exact Hs.
    - destruct (single_prompt_none CSV_FILES (Cli.output_dir args) (Cli.sys_prompt args)
                  (Cli.train_ratio args) (Cli.seed args) fs Hnone) as (ev & -> & Hs).
      exists ev. by split. }
  exists events. split; [exact Hmain|]. split; [exact Hsaves|].
  rewrite Hmain. cbn [fst].
  rewrite !pushes_app, pushes_Ran, pushes_summary. done.
Qed.

(** X26. In the mode of a single prompt, asked to push under a hub name
    that is not empty, [main] pushes one dataset, privately, to
    [<hub_name>_<prompt>]: the very dataset the run returned, which is also
    the only one it saved. *)
Theorem main_pushes_the_single_dataset args fs hub events processed :
  Cli.sys_prompt args ≠ "all" → Cli.push_to_hub args = true →
  Cli.hub_name args = Some hub → hub ≠ EmptyString →
  create_dataset_for_single_prompt CSV_FILES (Cli.output_dir args) (Cli.sys_prompt args)
    (Cli.train_ratio args) (Cli.seed args) fs = (events, Ok (Some processed)) →
  (Cli.main args fs).2 = Ok tt ∧
  Cli.pushes (Cli.main args fs).1 = [(hub +:+ "_" +:+ Cli.sys_prompt args, processed)] ∧
  saves events =
    [(os_path_join (Cli.output_dir args) ("lifesnaps_" +:+ Cli.sys_prompt args), processed)].
Proof.
  intros Hmode Hpush Hhub Hne Hrun.
  destruct (single_prompt_run _ _ _ _ _ _ _ _ Hrun) as (raw & sys & _ & _ & _ & Hsaves & _).
  assert (negb (String.eqb hub EmptyString) = true) as Hhub_ne.
  { destruct (String.eqb_spec hub EmptyString); done. }
  unfold Cli.main, Cli.make_and_push.
  rewrite (proj2 (String.eqb_neq _ _) Hmode), Hrun, Hpush, Hhub.
  unfold Cli.truthy_str. rewrite Hhub_ne.
  cbn [andb default from_option fst snd]. unfold id.
  split; [done|]. split; [|exact Hsaves].
  rewrite !pushes_app, pushes_Ran, pushes_summary. cbn. done.
Qed.

End Main.

Lemma main_pushes_only_when_asked_witness :
  Cli.pushes
    (@Cli.main StandIn.libs
       {| Cli.sys_prompt := "all"; Cli.train_ratio := DEFAULT_TRAIN_RATIO;
          Cli.seed := DEFAULT_SEED; Cli.output_dir := OUTPUT_DIR;
          Cli.push_to_hub := true; Cli.hub_name := None |} ∅).1 = [].
Proof.
  apply (@main_pushes_only_when_asked StandIn.libs). right. left. reflexivity.
Defined.

Lemma main_pushes_every_saved_dataset_witness :
  let fs : gmap string DataFrame :=
    {[ "/home/fzha836/HealthLLM-RLCR/data/LifeSnaps/LifeSnaps_sleep_disorder.csv"
         := StandIn.sleep;
       "/home/fzha836/HealthLLM-RLCR/data/LifeSnaps/LifeSnaps_stress_resilience.csv"
         := StandIn.stress ]} in
  let args :=
    {| Cli.sys_prompt := "all"; Cli.train_ratio := DEFAULT_TRAIN_RATIO;
       Cli.seed := DEFAULT_SEED; Cli.output_dir := OUTPUT_DIR;
       Cli.push_to_hub := true; Cli.hub_name := Some "me/lifesnaps" |} in
  (@Cli.main StandIn.libs args fs).2 = Ok tt ∧
  (λ push : string * DatasetDict, push.1) <$> Cli.pushes (@Cli.main StandIn.libs args fs).1 =
    [ "me/lifesnaps_gen"; "me/lifesnaps_tac"; "me/lifesnaps_tabc"; "me/lifesnaps_tabc_long" ].
Proof.
  intros fs args.
  assert (∃ events results,
            @create_datasets_for_all_prompts StandIn.libs CSV_FILES (Cli.output_dir args)
              (Cli.train_ratio args) (Cli.seed args) fs = (events, Ok (Some results)))
    as (events & results & Hrun) by (eexists _, _; reflexivity).
  assert ("me/lifesnaps" ≠ EmptyString) as Hne by discriminate.
  destruct (@main_pushes_every_saved_dataset StandIn.libs args fs "me/lifesnaps" events
              results eq_refl eq_refl eq_refl Hne Hrun) as (Hr & Hp & Hlen).
  split; [exact Hr|]. rewrite Hp.
  destruct (saves events) as [|s1 [|s2 [|s3 [|s4 [|s5 rest]]]]]; try discriminate Hlen.
  reflexivity.
Defined.

Lemma main_reports_completion_without_data_witness :
  (∀ it, it ∈ CSV_FILES → (∅ : gmap string DataFrame) !! it.2 = None) ∧
  (@Cli.main StandIn.libs
     {| Cli.sys_prompt := "tabc"; Cli.train_ratio := DEFAULT_TRAIN_RATIO;
        Cli.seed := DEFAULT_SEED; Cli.output_dir := OUTPUT_DIR;
        Cli.push_to_hub := true; Cli.hub_name := Some "me/lifesnaps" |} ∅).2 = Ok tt.
Proof.
  assert (∀ it, it ∈ CSV_FILES → (∅ : gmap string DataFrame) !! it.2 = None)
    as Hnone by (intros it _; apply lookup_empty).
  split; [exact Hnone|].
  destruct (@main_reports_completion_without_data StandIn.libs
              {| Cli.sys_prompt := "tabc"; Cli.train_ratio := DEFAULT_TRAIN_RATIO;
                 Cli.seed := DEFAULT_SEED; Cli.output_dir := OUTPUT_DIR;
                 Cli.push_to_hub := true; Cli.hub_name := Some "me/lifesnaps" |} ∅ Hnone)
    as (events & Hmain & _).
  by rewrite Hmain.
Defined.

Lemma main_pushes_the_single_dataset_witness :
  let fs : gmap string DataFrame :=
    {[ "/home/fzha836/HealthLLM-RLCR/data/LifeSnaps/LifeSnaps_stress_resilience.csv"
         := StandIn.stress ]} in
  let args :=
    {| Cli.sys_prompt := "tac"; Cli.train_ratio := DEFAULT_TRAIN_RATIO;
       Cli.seed := DEFAULT_SEED; Cli.output_dir := OUTPUT_DIR;
       Cli.push_to_hub := true; Cli.hub_name := Some "me/lifesnaps" |} in
  (λ push : string * DatasetDict, push.1) <$> Cli.pushes (@Cli.main StandIn.libs args fs).1 =
    [ "me/lifesnaps_tac" ].
Proof.
  intros fs args.
  assert (∃ events processed,
            @create_dataset_for_single_prompt StandIn.libs CSV_FILES (Cli.output_dir args)
              (Cli.sys_prompt args) (Cli.train_ratio args) (Cli.seed args) fs
            = (events, Ok (Some processed)))
    as (events & processed & Hrun) by (eexists _, _; reflexivity).
  assert ("me/lifesnaps" ≠ EmptyString) as Hne by discriminate.
  assert (Cli.sys_prompt args ≠ "all") as Hmode by discriminate.
  destruct (@main_pushes_the_single_dataset StandIn.libs args fs "me/lifesnaps" events
              processed Hmode eq_refl eq_refl Hne Hrun) as (_ & Hp & _).
  rewrite Hp. reflexivity.
Defined.
